(** * json_dashboard: the JSON-to-table flattener and its Pass/Fail normalizer

    A shallow embedding of [load_json_data] and of the two
    [convert_bool_to_pass_fail] functions of [json_dashboard.py], with the
    properties the specification states about them.

    Modelling choices.
    - A parsed JSON document is a value of [json].  A Python [dict] is an
      association list in insertion order; Python keeps the keys of a dict
      distinct, which is the hypothesis [NoDup (keys d)] where a statement
      depends on it.
    - A Python [str] is the [string] of its UTF-8 bytes, so that an ASCII
      character is one byte below 128 and every other character a run of
      bytes from 128 up.  Comparing, concatenating and searching for an
      ASCII text are then the operations of [string].  The normalizers
      lower-case a string only to compare it with an ASCII word, and
      title-case it only when it is a case variant of one: [Str.lower] and
      [Str.title] map the letters A-Z and a-z and leave the other bytes
      alone, which decides these comparisons as Python does.
      [str.upper] is computed on ASCII strings and is a parameter on the
      others (the Unicode tables are not part of the model); iterating a
      string yields its characters, not its bytes.
    - An exception is a value of [error]; code that can raise returns
      [outcome A].
    - The [DataFrame] built from the list of row dicts is that list: one
      row per dict, in order. *)

From Stdlib Require Import Bool Arith Lia List ZArith.
From Stdlib Require Import Ascii String DecimalString.
Import ListNotations.

Open Scope string_scope.
Open Scope list_scope.

Set Warnings "-register-all".

(** ** Python strings *)

Module Str.

Definition is_upper (c : ascii) : bool :=
  let n := nat_of_ascii c in ((65 <=? n) && (n <=? 90))%nat.

Definition is_lower (c : ascii) : bool :=
  let n := nat_of_ascii c in ((97 <=? n) && (n <=? 122))%nat.

(** A cased character is one that has an upper or a lower case form. *)
Definition is_cased (c : ascii) : bool := is_upper c || is_lower c.

Definition lower_char (c : ascii) : ascii :=
  if is_upper c then ascii_of_nat (nat_of_ascii c + 32) else c.

Definition upper_char (c : ascii) : ascii :=
  if is_lower c then ascii_of_nat (nat_of_ascii c - 32) else c.

Fixpoint map (f : ascii -> ascii) (s : string) : string :=
  match s with
  | EmptyString => EmptyString
  | String c s' => String (f c) (map f s')
  end.

(** [s.lower()], for the comparison with an ASCII word: the letters A-Z
    go to a-z, the other bytes stay. *)
Definition lower (s : string) : string := map lower_char s.

(** [s] is made of ASCII characters only. *)
Fixpoint is_ascii (s : string) : bool :=
  match s with
  | EmptyString => true
  | String c s' => (nat_of_ascii c <? 128)%nat && is_ascii s'
  end.

(** [s.upper()]: on an ASCII string the letters a-z go to A-Z and nothing
    else changes; on any other string it is what [upper_other] gives, the
    upper-casing of the Unicode tables. *)
Definition upper (upper_other : string -> string) (s : string) : string :=
  if is_ascii s then map upper_char s else upper_other s.

(** [s.title()]: a cased character is upper-cased when the character
    before it is not cased (or there is none), lower-cased otherwise. *)
Fixpoint title_from (previous_is_cased : bool) (s : string) : string :=
  match s with
  | EmptyString => EmptyString
  | String c s' =>
      String (if previous_is_cased then lower_char c else upper_char c)
             (title_from (is_cased c) s')
  end.

Definition title (s : string) : string := title_from false s.

(** None of the letters a-z occurs in [s]. *)
Fixpoint no_a_to_z (s : string) : bool :=
  match s with
  | EmptyString => true
  | String c s' => negb (is_lower c) && no_a_to_z s'
  end.

(** A byte that continues a character begun by an earlier byte (the bytes
    128 to 191 of UTF-8). *)
Definition is_continuation (c : ascii) : bool :=
  let n := nat_of_ascii c in ((128 <=? n) && (n <=? 191))%nat.

(** The characters of [s], each as a string (what iterating over a [str]
    yields): a byte opens a character and the continuation bytes after it
    belong to that character. *)
Fixpoint chars (s : string) : list string :=
  match s with
  | EmptyString => []
  | String c s' =>
      match s' with
      | String d _ =>
          if is_continuation d then
            match chars s' with
            | first :: others => String c first :: others
            | [] => [String c EmptyString]
            end
          else String c EmptyString :: chars s'
      | EmptyString => [String c EmptyString]
      end
  end.

End Str.

(** ** JSON values and dicts *)

Inductive json : Type :=
| JNull
| JBool (b : bool)
| JInt (n : Z)
| JFloat (mantissa exponent : Z)   (* a float [mantissa * 2^exponent] *)
| JStr (s : string)
| JArr (items : list json)
| JObj (members : list (string * json)).

Definition dict : Type := list (string * json).

Definition keys (d : dict) : list string := List.map fst d.

(** [d.get(k)], with [None] for a missing key. *)
Fixpoint dict_get (d : dict) (k : string) : option json :=
  match d with
  | [] => None
  | (k', v) :: d' => if String.eqb k' k then Some v else dict_get d' k
  end.

(** [d[k] = v]: an existing key keeps its position and takes the new value,
    a new key goes to the end. *)
Fixpoint dict_set (d : dict) (k : string) (v : json) : dict :=
  match d with
  | [] => [(k, v)]
  | (k', v') :: d' =>
      if String.eqb k' k then (k', v) :: d' else (k', v') :: dict_set d' k v
  end.

(** [d] without the key [k]. *)
Fixpoint dict_del (d : dict) (k : string) : dict :=
  match d with
  | [] => []
  | (k', v) :: d' =>
      if String.eqb k' k then dict_del d' k else (k', v) :: dict_del d' k
  end.

(** ** The Pass/Fail normalizer *)

(** The function nested in [load_json_data] (lines 34-41), the one the
    flattener calls. *)
Module Inner.

Definition convert_bool_to_pass_fail (value : json) : json :=
  match value with
  | JBool b => JStr (if b then "Pass" else "Fail")
  | JStr s =>
      let lv := Str.lower s in
      if String.eqb lv "true" || String.eqb lv "pass" then JStr "Pass"
      else if String.eqb lv "false" || String.eqb lv "fail" then JStr "Fail"
      else value
  | _ => value
  end.

End Inner.

(** The module-level function (lines 74-86), the one the detail view
    calls. *)
Definition convert_bool_to_pass_fail (value : json) : json :=
  match value with
  | JBool b => JStr (if b then "Pass" else "Fail")
  | JStr s =>
      let lower_value := Str.lower s in
      if String.eqb lower_value "true" then JStr "Pass"
      else if String.eqb lower_value "false" then JStr "Fail"
      else if String.eqb lower_value "pass" || String.eqb lower_value "fail"
      then JStr (Str.title s)
      else value
  | _ => value
  end.

(** ** Exceptions *)

Inductive error : Type :=
| KeyError (key : string)
| TypeError
| AttributeError
| JSONDecodeError.

(** What a computation that may raise yields. *)
Definition outcome (A : Type) : Type := (error + A)%type.

Definition ret {A : Type} (a : A) : outcome A := inr a.

Definition raise {A : Type} (e : error) : outcome A := inl e.

Definition bind {A B : Type} (m : outcome A) (k : A -> outcome B) : outcome B :=
  match m with
  | inl e => inl e
  | inr a => k a
  end.

Notation "x <- m ;; k" := (bind m (fun x => k))
  (at level 61, m at next level, right associativity).

Definition succeeds {A : Type} (m : outcome A) : bool :=
  match m with inl _ => false | inr _ => true end.

(** ** The Python operations the loader applies to parsed JSON *)

(** [v[k]] for a string [k]: only a dict can be indexed by a string. *)
Definition getitem (v : json) (k : string) : outcome json :=
  match v with
  | JObj d =>
      match dict_get d k with
      | Some x => ret x
      | None => raise (KeyError k)
      end
  | _ => raise TypeError
  end.

(** [v.get(k, default)] *)
Definition get_default (v : json) (k : string) (default : json) : outcome json :=
  match v with
  | JObj d =>
      match dict_get d k with
      | Some x => ret x
      | None => ret default
      end
  | _ => raise AttributeError
  end.

(** [v.items()] *)
Definition items (v : json) : outcome dict :=
  match v with
  | JObj d => ret d
  | _ => raise AttributeError
  end.

(** What [for x in v] runs through: the elements of a list, the keys of a
    dict, the characters of a string. *)
Definition iterate (v : json) : outcome (list json) :=
  match v with
  | JArr xs => ret xs
  | JObj d => ret (List.map JStr (keys d))
  | JStr s => ret (List.map JStr (Str.chars s))
  | _ => raise TypeError
  end.

Fixpoint strings_of (xs : list json) : outcome (list string) :=
  match xs with
  | [] => ret []
  | JStr s :: xs' => ss <- strings_of xs' ;; ret (s :: ss)
  | _ :: _ => raise TypeError
  end.

(** [sep.join(v)] *)
Definition join (sep : string) (v : json) : outcome string :=
  xs <- iterate v ;;
  ss <- strings_of xs ;;
  ret (String.concat sep ss).

(** A file handed to [json.load]: its text parses to a JSON value or it
    does not. *)
Inductive file : Type :=
| Json (data : json)
| NotJson.

Definition json_load (f : file) : outcome json :=
  match f with
  | Json data => ret data
  | NotJson => raise JSONDecodeError
  end.

(** ** The flattener *)

(** What the page shows once the load has run: the error banner, the
    no-data warning, or the views over the table. *)
Inductive page : Type :=
| ErrorBanner (e : error)
| NoDataWarning
| Views (df : list dict).

(** What the model leaves open of Python's built-ins. *)
Record builtins : Type := {
  (** [str(v)] of a float, a list or a dict. *)
  repr_other : json -> string;
  (** [s.upper()] of a string that is not all ASCII. *)
  upper_other : string -> string
}.

Section Flattener.

Variable py : builtins.

(** [str(v)] *)
Definition str (v : json) : string :=
  match v with
  | JStr s => s
  | JNull => "None"
  | JBool b => if b then "True" else "False"
  | JInt n => NilZero.string_of_int (Z.to_int n)
  | _ => repr_other py v
  end.

(** One turn of the loop over [eval_results.items()] (lines 44-67).  The
    test [k in result] followed by [result[k]] is the one lookup
    [dict_get result k]. *)
Definition shape (record : dict) (eval_type : string) (result : json) : dict :=
  if String.eqb eval_type "decision_accuracy" then
    dict_set record ("eval_" ++ eval_type) (Inner.convert_bool_to_pass_fail result)
  else
    match result with
    | JObj result =>
        match dict_get result "grounded" with
        | Some grounded =>
            let record :=
              dict_set record ("eval_" ++ eval_type)
                       (Inner.convert_bool_to_pass_fail grounded) in
            match dict_get result "reason" with
            | Some reason => dict_set record ("eval_" ++ eval_type ++ "_reason") reason
            | None => record
            end
        | None =>
        match dict_get result "Eval_Status" with
        | Some eval_status =>
            let record :=
              dict_set record ("eval_" ++ eval_type)
                       (Inner.convert_bool_to_pass_fail eval_status) in
            let record :=
              match dict_get result "which_one_executed" with
              | Some which =>
                  dict_set record ("eval_" ++ eval_type ++ "_which_one_executed") which
              | None => record
              end in
            match dict_get result "reason" with
            | Some reason => dict_set record ("eval_" ++ eval_type ++ "_reason") reason
            | None => record
            end
        | None =>
        match dict_get result "negation_pass" with
        | Some negation_pass =>
            let record :=
              dict_set record ("eval_" ++ eval_type)
                       (Inner.convert_bool_to_pass_fail negation_pass) in
            let record :=
              match dict_get result "which_one_executed" with
              | Some which =>
                  dict_set record ("eval_" ++ eval_type ++ "_which_one_executed") which
              | None => record
              end in
            match dict_get result "reason" with
            | Some reason => dict_set record ("eval_" ++ eval_type ++ "_reason") reason
            | None => record
            end
        | None =>
            fold_left
              (fun record kv =>
                 dict_set record ("eval_" ++ eval_type ++ "_" ++ fst kv)
                          (Inner.convert_bool_to_pass_fail (snd kv)))
              result record
        end end end
    | _ =>
        dict_set record ("eval_" ++ eval_type) (Inner.convert_bool_to_pass_fail result)
    end.

(** The loop over [eval_results.items()] (line 43). *)
Definition shape_all (record : dict) (eval_results : dict) : dict :=
  fold_left (fun record kv => shape record (fst kv) (snd kv)) eval_results record.

(** The body of the loop over [data] (lines 22-68): the row of one item.
    [item['metadata']] and [item['input_data']], looked up once per field
    in the source, are bound once here; the item is not modified in
    between, and the order in which a failure can arise is kept. *)
Definition flatten (item : json) : outcome dict :=
  metadata <- getitem item "metadata" ;;
  timestamp <- getitem metadata "timestamp" ;;
  runs <- getitem metadata "evaluations_run" ;;
  evaluations_run <- join ", " runs ;;
  input_data <- getitem item "input_data" ;;
  jid <- getitem input_data "jid" ;;
  aid <- getitem input_data "aid" ;;
  aligned <- getitem input_data "aligned" ;;
  gold_aligned <- getitem input_data "gold_aligned" ;;
  title <- getitem input_data "title" ;;
  rationale <- get_default input_data "rationale" (JStr "N/A") ;;
  source_file <- getitem item "source_file" ;;
  let record :=
    [ ("timestamp", timestamp);
      ("evaluations_run", JStr evaluations_run);
      ("jid", JStr (Str.upper (upper_other py) (str jid)));
      ("aid", aid);
      ("aligned", aligned);
      ("gold_aligned", gold_aligned);
      ("title", title);
      ("rationale", rationale);
      ("source_file", source_file) ] in
  eval_results <- getitem item "evaluation_results" ;;
  pairs <- items eval_results ;;
  ret (shape_all record pairs).

(** The loop over [data] (lines 20-69): [records] grows by one row per
    item; an exception leaves the loop and the function. *)
Fixpoint flatten_loop (records : list dict) (data : list json) : outcome (list dict) :=
  match data with
  | [] => ret records
  | item :: data' =>
      record <- flatten item ;;
      flatten_loop (records ++ [record]) data'
  end.

(** Lines 10-18: the uploaded file if there is one, else the default
    file if it exists ([default_file] is [None] when it does not), else
    the empty list. *)
Definition read_data (uploaded_file default_file : option file) : outcome json :=
  match uploaded_file with
  | Some f => json_load f
  | None =>
      match default_file with
      | Some f => json_load f
      | None => ret (JArr [])
      end
  end.

(** [load_json_data]; the table is the list of its rows. *)
Definition load_json_data (uploaded_file default_file : option file)
  : outcome (list dict) :=
  data <- read_data uploaded_file default_file ;;
  data <- iterate data ;;
  flatten_loop [] data.

(** The page once the load has run (lines 98-103 and 346-348). *)
Definition page_after_load (uploaded_file default_file : option file) : page :=
  match load_json_data uploaded_file default_file with
  | inl e => ErrorBanner e
  | inr [] => NoDataWarning
  | inr df => Views df
  end.

End Flattener.

(** ** The columns the overview table and the detail view show *)

(** [sub in s] for two strings. *)
Fixpoint contains (sub s : string) : bool :=
  String.prefix sub s
  || match s with
     | EmptyString => false
     | String _ s' => contains sub s'
     end.

(** [x in xs] for a list of strings (the columns of a frame). *)
Definition mem (x : string) (xs : list string) : bool :=
  existsb (String.eqb x) xs.

(** Lines 140-144 ([columns] stands for [display_df.columns]). *)
Definition eval_cols_to_keep (columns : list string) : list string :=
  filter
    (fun col =>
       String.prefix "eval_" col
       && negb (existsb (fun exclude_word => contains exclude_word col)
                        ["reason"; "which_one_executed"]))
    columns.

(** Lines 137 and 147-149. *)
Definition display_columns (columns : list string) : list string :=
  let columns_to_remove := ["aligned"; "gold_aligned"] in
  let display_columns := ["jid"; "aid"] ++ eval_cols_to_keep columns in
  let display_columns :=
    filter (fun col => negb (mem col columns_to_remove)) display_columns in
  filter (fun col => mem col columns) display_columns.

(** Lines 231-234 ([index] stands for [selected_row.index]). *)
Definition eval_cols (index : list string) : list string :=
  filter
    (fun col =>
       String.prefix "eval_" col && negb (contains "which_one_executed" col))
    index.

(** Line 292: [df[col].dtype == 'bool'] holds of a column of a frame with
    at least one row when every row holds a boolean there (a missing value
    or any other value makes the column of another dtype). *)
Definition bool_dtype (df : list dict) (col : string) : bool :=
  forallb
    (fun row =>
       match dict_get row col with
       | Some (JBool _) => true
       | _ => false
       end)
    df.

(** Line 292, the columns of the pass-rate chart. *)
Definition eval_columns (columns : list string) (df : list dict) : list string :=
  filter (fun col => String.prefix "eval_" col && bool_dtype df col) columns.

(** ** The sidebar filters and the record selector *)

(** [v == True] and [v == False] of Python, [b] being the boolean: a
    boolean equals itself, the numbers 1 and 0 equal [True] and [False],
    nothing else does. *)
Definition equals_bool (v : json) (b : bool) : bool :=
  match v with
  | JBool b' => Bool.eqb b' b
  | JInt n => Z.eqb n (if b then 1 else 0)
  | JFloat mantissa exponent =>
      if b then
        if Z.leb 0 exponent then Z.eqb (mantissa * 2 ^ exponent) 1
        else Z.eqb mantissa (2 ^ (- exponent))
      else Z.eqb mantissa 0
  | _ => false
  end.

(** Lines 106-114: the frame after the journal and the alignment filter. *)
Definition apply_filters (journal_filter alignment_filter : string)
           (df : list dict) : list dict :=
  let df :=
    if negb (String.eqb journal_filter "All") then
      filter
        (fun row =>
           match dict_get row "jid" with
           | Some (JStr jid) => String.eqb jid journal_filter
           | _ => false
           end)
        df
    else df in
  if String.eqb alignment_filter "Aligned" then
    filter
      (fun row =>
         match dict_get row "aligned" with
         | Some aligned => equals_bool aligned true
         | None => false
         end)
      df
  else if String.eqb alignment_filter "Not Aligned" then
    filter
      (fun row =>
         match dict_get row "aligned" with
         | Some aligned => equals_bool aligned false
         | None => false
         end)
      df
  else df.

(** [xs.index(x)], the position of the first occurrence. *)
Fixpoint index (x : string) (xs : list string) : option nat :=
  match xs with
  | [] => None
  | y :: xs' =>
      if String.eqb y x then Some 0
      else match index x xs' with
           | Some i => Some (S i)
           | None => None
           end
  end.

Section RecordSelector.

(** The text of the f-string of line 190 for a row (it may raise, on a
    title that cannot be sliced); how the cells are printed is left open. *)
Variable option_label : dict -> outcome string.

(** Lines 190-191. *)
Fixpoint record_options (df : list dict) : outcome (list string) :=
  match df with
  | [] => ret []
  | row :: df' =>
      label <- option_label row ;;
      labels <- record_options df' ;;
      ret (label :: labels)
  end.

(** Lines 193-196: the user picks the option at position [choice]; the
    select box returns its text, the row shown is [df.iloc] of the [index]
    of that text. *)
Definition selected_row (df : list dict) (choice : nat) : outcome (option dict) :=
  record_options <- record_options df ;;
  ret match nth_error record_options choice with
      | Some selected_record =>
          match index selected_record record_options with
          | Some selected_idx => nth_error df selected_idx
          | None => None
          end
      | None => None
      end.

(** [row] has the label [label]. *)
Definition labelled (label : string) (row : dict) : bool :=
  match option_label row with
  | inr label' => String.eqb label' label
  | inl _ => false
  end.

End RecordSelector.

(** ** The notions the specification uses *)

(** [s] is [word] up to the case of its letters: each character of [s] is
    the character of [word] at that place, in lower or in upper case. *)
Fixpoint case_variant (word s : string) : bool :=
  match word, s with
  | EmptyString, EmptyString => true
  | String a word', String c s' =>
      (Ascii.eqb c (Str.lower_char a) || Ascii.eqb c (Str.upper_char a))
      && case_variant word' s'
  | _, _ => false
  end.

(** The normalizer as section 4.1 of the specification words it. *)
Definition normalize_spec (value : json) : json :=
  match value with
  | JBool true => JStr "Pass"
  | JBool false => JStr "Fail"
  | JStr s =>
      if case_variant "true" s || case_variant "pass" s then JStr "Pass"
      else if case_variant "false" s || case_variant "fail" s then JStr "Fail"
      else JStr s
  | _ => value
  end.

(** The value found by following [path], a sequence of keys, down from
    [v]; [None] when a key on the way is missing (or what should hold it is
    not a mapping). *)
Fixpoint path_get (v : json) (path : list string) : option json :=
  match path with
  | [] => Some v
  | k :: path' =>
      match v with
      | JObj d =>
          match dict_get d k with
          | Some x => path_get x path'
          | None => None
          end
      | _ => None
      end
  end.

Definition present (item : json) (path : list string) : bool :=
  match path_get item path with Some _ => true | None => false end.

(** The required keys section 7 of the specification lists. *)
Definition required_keys : list (list string) :=
  [ ["metadata"; "timestamp"];
    ["input_data"; "jid"];
    ["input_data"; "aid"];
    ["input_data"; "aligned"];
    ["input_data"; "gold_aligned"];
    ["input_data"; "title"];
    ["evaluation_results"];
    ["source_file"] ].

Definition is_string (v : json) : bool :=
  match v with JStr _ => true | _ => false end.

(** A record as section 3 of the specification describes it, as far as the
    loader reads it: the required keys are there, [evaluations_run] is a
    sequence of strings and [evaluation_results] is a mapping.  Nothing is
    asked of [rationale] or [reason]. *)
Definition valid_record (item : json) : bool :=
  forallb (present item) required_keys
  && match path_get item ["metadata"; "evaluations_run"] with
     | Some (JArr runs) => forallb is_string runs
     | _ => false
     end
  && match path_get item ["evaluation_results"] with
     | Some (JObj _) => true
     | _ => false
     end.

(** What the body of the loop asks of an item, in the order it asks it. *)
Definition flattens (item : json) : bool :=
  present item ["metadata"; "timestamp"]
  && match path_get item ["metadata"; "evaluations_run"] with
     | Some runs => succeeds (join ", " runs)
     | None => false
     end
  && present item ["input_data"; "jid"]
  && present item ["input_data"; "aid"]
  && present item ["input_data"; "aligned"]
  && present item ["input_data"; "gold_aligned"]
  && present item ["input_data"; "title"]
  && present item ["source_file"]
  && match path_get item ["evaluation_results"] with
     | Some (JObj _) => true
     | _ => false
     end.

(** [item] with [input_data.rationale] taken out. *)
Definition without_rationale (item : json) : json :=
  match item with
  | JObj d =>
      match dict_get d "input_data" with
      | Some (JObj input_data) =>
          JObj (dict_set d "input_data" (JObj (dict_del input_data "rationale")))
      | _ => item
      end
  | _ => item
  end.

(** [item] with [reason] taken out of every result that is a mapping. *)
Definition without_reasons (item : json) : json :=
  match item with
  | JObj d =>
      match dict_get d "evaluation_results" with
      | Some (JObj eval_results) =>
          JObj (dict_set d "evaluation_results"
                  (JObj (List.map
                           (fun kv =>
                              (fst kv,
                               match snd kv with
                               | JObj result => JObj (dict_del result "reason")
                               | other => other
                               end))
                           eval_results)))
      | _ => item
      end
  | _ => item
  end.

(** ** Sample data (section 8 of the specification) *)

Definition sample_record : json :=
  JObj
    [ ("metadata",
       JObj [ ("timestamp", JStr "2025-01-01T00:00:00");
              ("evaluations_run", JArr [JStr "groundedness"; JStr "custom_check"]) ]);
      ("input_data",
       JObj [ ("jid", JStr "abC"); ("aid", JInt 12); ("aligned", JBool true);
              ("gold_aligned", JBool false); ("title", JStr "A title") ]);
      ("evaluation_results",
       JObj [ ("decision_accuracy", JBool true);
              ("groundedness",
               JObj [ ("grounded", JBool false);
                      ("reason", JStr "missing citation") ]);
              ("custom_check",
               JObj [ ("score", JFloat 1 (-1)); ("notes", JStr "ok") ]) ]);
      ("source_file", JStr "results.json") ].

(** A record with no [input_data.jid]. *)
Definition sample_record_no_jid : json :=
  JObj
    [ ("metadata",
       JObj [ ("timestamp", JStr "2025-01-02T00:00:00");
              ("evaluations_run", JArr []) ]);
      ("input_data",
       JObj [ ("aid", JInt 13); ("aligned", JBool true);
              ("gold_aligned", JBool true); ("title", JStr "Another") ]);
      ("evaluation_results", JObj []);
      ("source_file", JStr "results.json") ].

(** A result with the keys of three rules at once. *)
Definition sample_grounded : dict :=
  [ ("Eval_Status", JStr "fail");
    ("grounded", JBool false);
    ("negation_pass", JBool true);
    ("which_one_executed", JStr "first");
    ("reason", JStr "missing citation") ].

Definition sample_custom : dict :=
  [ ("score", JFloat 1 (-1)); ("notes", JStr "ok");
    ("detail", JObj [("passed", JBool true)]) ].

Definition plain : builtins :=
  {| repr_other := fun _ => ""; upper_other := fun _ => "" |}.

Definition sample_row : dict :=
  [ ("timestamp", JStr "2025-01-01T00:00:00");
    ("evaluations_run", JStr "groundedness, custom_check");
    ("jid", JStr "ABC");
    ("aid", JInt 12);
    ("aligned", JBool true);
    ("gold_aligned", JBool false);
    ("title", JStr "A title");
    ("rationale", JStr "N/A");
    ("source_file", JStr "results.json");
    ("eval_decision_accuracy", JStr "Pass");
    ("eval_groundedness", JStr "Fail");
    ("eval_groundedness_reason", JStr "missing citation");
    ("eval_custom_check_score", JFloat 1 (-1));
    ("eval_custom_check_notes", JStr "ok") ].

(** ** Notions for the further properties *)

Definition is_mapping (v : json) : bool :=
  match v with JObj _ => true | _ => false end.

(** The keys of the dict literal of lines 22-32, in its order. *)
Definition base_columns : list string :=
  [ "timestamp"; "evaluations_run"; "jid"; "aid"; "aligned"; "gold_aligned";
    "title"; "rationale"; "source_file" ].

(** The value at [path], [None] of Python when there is none. *)
Definition field (item : json) (path : list string) : json :=
  match path_get item path with Some x => x | None => JNull end.

(** The dict literal of lines 22-32 read off the item by paths, given the
    joined [evaluations_run]. *)
Definition base_record (py : builtins) (item : json)
           (evaluations_run : string) : dict :=
  [ ("timestamp", field item ["metadata"; "timestamp"]);
    ("evaluations_run", JStr evaluations_run);
    ("jid",
     JStr (Str.upper (upper_other py) (str py (field item ["input_data"; "jid"]))));
    ("aid", field item ["input_data"; "aid"]);
    ("aligned", field item ["input_data"; "aligned"]);
    ("gold_aligned", field item ["input_data"; "gold_aligned"]);
    ("title", field item ["input_data"; "title"]);
    ("rationale",
     match path_get item ["input_data"; "rationale"] with
     | Some rationale => rationale
     | None => JStr "N/A"
     end);
    ("source_file", field item ["source_file"]) ].

(** What a turn of the loop keeps of the columns it has written so far:
    distinct keys, all of them [eval_] columns. *)
Definition eval_dict (d : dict) : Prop :=
  NoDup (keys d) /\ forallb (String.prefix "eval_") (keys d) = true.

(** The column and value a result that is not a mapping gives. *)
Definition scalar_column (kv : string * json) : string * json :=
  (("eval_" ++ fst kv)%string, Inner.convert_bool_to_pass_fail (snd kv)).

Definition is_bool (v : json) : bool :=
  match v with JBool _ => true | _ => false end.

(** Every exception the body of the loop over [data] can raise. *)
Definition flatten_errors : list error :=
  [ TypeError; AttributeError;
    KeyError "metadata"; KeyError "timestamp"; KeyError "evaluations_run";
    KeyError "input_data"; KeyError "jid"; KeyError "aid"; KeyError "aligned";
    KeyError "gold_aligned"; KeyError "title"; KeyError "source_file";
    KeyError "evaluation_results" ].

(** The [jid] column for a jid that is null, a boolean or an integer. *)
Definition plain_jid_text (jid : json) : string :=
  match jid with
  | JNull => "NONE"
  | JBool true => "TRUE"
  | JBool false => "FALSE"
  | JInt n => NilZero.string_of_int (Z.to_int n)
  | _ => ""
  end.

Definition is_plain (jid : json) : bool :=
  match jid with
  | JNull | JBool _ | JInt _ => true
  | _ => false
  end.

(** The column name has "reason" or "which_one_executed" in it: the test
    by which the overview table leaves a column out. *)
Definition left_out (col : string) : bool :=
  existsb (fun exclude_word => contains exclude_word col)
          ["reason"; "which_one_executed"].

(** The booleans among the evaluation columns of [d] sit in columns that
    are left out of the overview table. *)
Definition booleans_left_out (d : dict) : Prop :=
  forall (c : string) (b : bool),
    String.prefix "eval_" c = true ->
    dict_get d c = Some (JBool b) ->
    left_out c = true.

(** A result with [Eval_Status] and [negation_pass] but no [grounded]. *)
Definition sample_status : dict :=
  [ ("negation_pass", JBool true);
    ("Eval_Status", JStr "FAIL");
    ("which_one_executed", JStr "second") ].

Definition sample_negation : dict :=
  [ ("negation_pass", JStr "true"); ("reason", JStr "no negation found") ].

(** A record off the beaten track: [evaluations_run] is one string, [jid]
    and [rationale] are null, no result is a mapping. *)
Definition sample_record_odd : json :=
  JObj
    [ ("metadata",
       JObj [ ("timestamp", JStr "2025-01-03T00:00:00");
              ("evaluations_run", JStr "qa") ]);
      ("input_data",
       JObj [ ("jid", JNull); ("aid", JStr "A-7"); ("aligned", JBool false);
              ("gold_aligned", JBool true); ("title", JStr "Odd");
              ("rationale", JNull) ]);
      ("evaluation_results",
       JObj [ ("decision_accuracy", JStr "TRUE");
              ("length_ok", JBool false);
              ("note", JStr "n/a") ]);
      ("source_file", JStr "odd.json") ].

Definition sample_row_odd : dict :=
  [ ("timestamp", JStr "2025-01-03T00:00:00");
    ("evaluations_run", JStr "q, a");
    ("jid", JStr "NONE");
    ("aid", JStr "A-7");
    ("aligned", JBool false);
    ("gold_aligned", JBool true);
    ("title", JStr "Odd");
    ("rationale", JNull);
    ("source_file", JStr "odd.json");
    ("eval_decision_accuracy", JStr "Pass");
    ("eval_length_ok", JStr "Fail");
    ("eval_note", JStr "n/a") ].

Definition sample_results : dict :=
  [ ("decision_accuracy", JBool true);
    ("groundedness",
     JObj [ ("grounded", JBool false); ("reason", JStr "missing citation") ]);
    ("custom_check", JObj [ ("score", JFloat 1 (-1)); ("notes", JStr "ok") ]) ].

Definition sample_results_odd : dict :=
  [ ("decision_accuracy", JStr "TRUE");
    ("length_ok", JBool false);
    ("note", JStr "n/a") ].

(** A record whose [reason] is a boolean. *)
Definition sample_record_flagged : json :=
  JObj
    [ ("metadata",
       JObj [ ("timestamp", JStr "2025-01-04T00:00:00");
              ("evaluations_run", JArr [JStr "groundedness"]) ]);
      ("input_data",
       JObj [ ("jid", JStr "xyz"); ("aid", JInt 3); ("aligned", JBool true);
              ("gold_aligned", JBool true); ("title", JStr "Flagged") ]);
      ("evaluation_results",
       JObj [ ("groundedness",
               JObj [ ("grounded", JBool true); ("reason", JBool false) ]) ]);
      ("source_file", JStr "flagged.json") ].

Definition sample_row_flagged : dict :=
  [ ("timestamp", JStr "2025-01-04T00:00:00");
    ("evaluations_run", JStr "groundedness");
    ("jid", JStr "XYZ");
    ("aid", JInt 3);
    ("aligned", JBool true);
    ("gold_aligned", JBool true);
    ("title", JStr "Flagged");
    ("rationale", JStr "N/A");
    ("source_file", JStr "flagged.json");
    ("eval_groundedness", JStr "Pass");
    ("eval_groundedness_reason", JBool false) ].

(** A label for the examples: the journal id of the row alone. *)
Definition sample_label (row : dict) : outcome string :=
  match dict_get row "jid" with
  | Some (JStr jid) => inr jid
  | _ => inl TypeError
  end.

(** A record with the given evaluation results, and the row of such a
    record with the given evaluation columns. *)
Definition record_with (eval_results : dict) : json :=
  JObj
    [ ("metadata",
       JObj [ ("timestamp", JStr "2025-01-05T00:00:00");
              ("evaluations_run", JArr []) ]);
      ("input_data",
       JObj [ ("jid", JStr "j"); ("aid", JInt 1); ("aligned", JBool true);
              ("gold_aligned", JBool true); ("title", JStr "t") ]);
      ("evaluation_results", JObj eval_results);
      ("source_file", JStr "s.json") ].

Definition row_with (eval_columns : dict) : dict :=
  [ ("timestamp", JStr "2025-01-05T00:00:00");
    ("evaluations_run", JStr "");
    ("jid", JStr "J");
    ("aid", JInt 1);
    ("aligned", JBool true);
    ("gold_aligned", JBool true);
    ("title", JStr "t");
    ("rationale", JStr "N/A");
    ("source_file", JStr "s.json") ] ++ eval_columns.

(** Evaluation results in which two kinds write the same column. *)
Definition decision_collision : dict :=
  [ ("decision_accuracy", JBool true);
    ("decision", JObj [("accuracy", JStr "n/a")]) ].

Definition reason_collision : dict :=
  [ ("g", JObj [("grounded", JBool true); ("reason", JStr "because")]);
    ("g_reason", JStr "pass") ].

Definition subkey_collision : dict :=
  [ ("a", JObj [("b_c", JInt 1)]);
    ("a_b", JObj [("c", JInt 2)]) ].

(** * Properties *)

(** ** Characters and strings *)

Ltac each_char c := destruct c as [[] [] [] [] [] [] [] []].

Lemma lower_char_idem (c : ascii) :
  Str.lower_char (Str.lower_char c) = Str.lower_char c.
Proof. each_char c; reflexivity. Qed.

Lemma upper_char_lower_char (c : ascii) :
  Str.upper_char (Str.lower_char c) = Str.upper_char c.
Proof. each_char c; reflexivity. Qed.

Lemma lower_char_upper_char (c : ascii) :
  Str.lower_char (Str.upper_char c) = Str.lower_char c.
Proof. each_char c; reflexivity. Qed.

Lemma is_cased_lower_char (c : ascii) :
  Str.is_cased (Str.lower_char c) = Str.is_cased c.
Proof. each_char c; reflexivity. Qed.

Lemma is_lower_upper_char (c : ascii) :
  Str.is_lower (Str.upper_char c) = false.
Proof. each_char c; reflexivity. Qed.

Lemma own_case_form (c : ascii) :
  Ascii.eqb c (Str.lower_char c) || Ascii.eqb c (Str.upper_char c) = true.
Proof. each_char c; reflexivity. Qed.

Lemma lower_idem (s : string) : Str.lower (Str.lower s) = Str.lower s.
Proof.
  unfold Str.lower.
  induction s as [|c s IH]; cbn [Str.map]; [reflexivity|].
  now rewrite lower_char_idem, IH.
Qed.




Lemma no_a_to_z_map_upper (s : string) :
  Str.no_a_to_z (Str.map Str.upper_char s) = true.
Proof.
  induction s as [|c s IH]; cbn [Str.map Str.no_a_to_z]; [reflexivity|].
  now rewrite is_lower_upper_char, IH.
Qed.



(** [title] sees only the lower-cased form of its argument. *)
Lemma title_from_lower (s : string) (b : bool) :
  Str.title_from b (Str.lower s) = Str.title_from b s.
Proof.
  unfold Str.lower.
  revert b; induction s as [|c s IH]; intro b;
    cbn [Str.map Str.title_from]; [reflexivity|].
  rewrite lower_char_idem, upper_char_lower_char, is_cased_lower_char.
  f_equal. apply IH.
Qed.

Lemma title_lower (s : string) : Str.title (Str.lower s) = Str.title s.
Proof. apply title_from_lower. Qed.

(** A case variant of [word] is a string with the lower-cased form of
    [word]. *)
Lemma case_variant_lower (word s : string) :
  case_variant word s = String.eqb (Str.lower s) (Str.lower word).
Proof.
  unfold Str.lower.
  revert s; induction word as [|a word IH]; intros [|c s];
    cbn [case_variant Str.map String.eqb]; try reflexivity.
  rewrite IH.
  destruct (Ascii.eqb (Str.lower_char c) (Str.lower_char a)) eqn:E.
  - apply Ascii.eqb_eq in E.
    rewrite <- (upper_char_lower_char a), <- E, upper_char_lower_char.
    now rewrite own_case_form.
  - apply Ascii.eqb_neq in E.
    replace (Ascii.eqb c (Str.lower_char a) || Ascii.eqb c (Str.upper_char a))
      with false; [reflexivity|]. symmetry.
    apply orb_false_iff; split; apply Ascii.eqb_neq; intro H; apply E; subst c.
    + apply lower_char_idem.
    + apply lower_char_upper_char.
Qed.

(** ** The normalizer *)

Lemma inner_meets_spec (value : json) :
  Inner.convert_bool_to_pass_fail value = normalize_spec value.
Proof.
  destruct value as [ | [] | | | s | | ]; try reflexivity.
  unfold Inner.convert_bool_to_pass_fail, normalize_spec.
  now rewrite !case_variant_lower.
Qed.

Lemma outer_meets_spec (value : json) :
  convert_bool_to_pass_fail value = normalize_spec value.
Proof.
  destruct value as [ | [] | | | s | | ]; try reflexivity.
  unfold convert_bool_to_pass_fail, normalize_spec.
  rewrite !case_variant_lower.
  change (Str.lower "true") with "true". change (Str.lower "pass") with "pass".
  change (Str.lower "false") with "false". change (Str.lower "fail") with "fail".
  cbv zeta.
  destruct (String.eqb (Str.lower s) "true") eqn:Et; [reflexivity|].
  destruct (String.eqb (Str.lower s) "false") eqn:Ef.
  - apply String.eqb_eq in Ef. now rewrite Ef.
  - destruct (String.eqb (Str.lower s) "pass") eqn:Ep.
    + apply String.eqb_eq in Ep. now rewrite <- title_lower, Ep.
    + destruct (String.eqb (Str.lower s) "fail") eqn:Eq; [|reflexivity].
      apply String.eqb_eq in Eq. now rewrite <- title_lower, Eq.
Qed.

Lemma normalize_spec_idem (value : json) :
  normalize_spec (normalize_spec value) = normalize_spec value.
Proof.
  destruct value as [ | [] | | | s | | ]; try reflexivity.
  cbn [normalize_spec].
  destruct (case_variant "true" s || case_variant "pass" s) eqn:Ep; [reflexivity|].
  destruct (case_variant "false" s || case_variant "fail" s) eqn:Ef; [reflexivity|].
  cbn [normalize_spec]. now rewrite Ep, Ef.
Qed.

Lemma inner_eq_outer (value : json) :
  Inner.convert_bool_to_pass_fail value = convert_bool_to_pass_fail value.
Proof. now rewrite inner_meets_spec, outer_meets_spec. Qed.

Example normalize_maybe :
  Inner.convert_bool_to_pass_fail (JStr "maybe") = JStr "maybe"
  /\ convert_bool_to_pass_fail (JStr "maybe") = JStr "maybe".
Proof. split; reflexivity. Qed.

Example normalize_section8 :
  List.map convert_bool_to_pass_fail [JBool true; JStr "true"; JStr "Pass"; JStr "pass"]
  = [JStr "Pass"; JStr "Pass"; JStr "Pass"; JStr "Pass"]
  /\ List.map convert_bool_to_pass_fail [JBool false; JStr "false"; JStr "Fail"; JStr "fail"]
     = [JStr "Fail"; JStr "Fail"; JStr "Fail"; JStr "Fail"].
Proof. split; reflexivity. Qed.

(** C1.  Both normalizers send [true] and every case variant of "true" and
    "pass" to exactly "Pass", [false] and every case variant of "false" and
    "fail" to exactly "Fail", and return every other string and every value
    that is neither a boolean nor a string unchanged: each of them is the
    function [normalize_spec]. *)
Theorem normalizer_contract (value : json) :
  Inner.convert_bool_to_pass_fail value = normalize_spec value
  /\ convert_bool_to_pass_fail value = normalize_spec value.
Proof. split; [apply inner_meets_spec | apply outer_meets_spec]. Qed.

(** C9, as the code has it.  The two normalizers are the same function: on
    a case variant of "pass" or "fail" the nested one returns the literal
    "Pass" or "Fail" and the module-level one the title-cased input, which is
    that same string. *)
Theorem normalizers_agree (value : json) :
  Inner.convert_bool_to_pass_fail value = convert_bool_to_pass_fail value.
Proof. apply inner_eq_outer. Qed.

(** C9, as stated, fails: no case variant of "pass" or "fail" tells the two
    normalizers apart. *)
Lemma no_case_variant_separates_normalizers :
  ~ (exists s : string,
        (case_variant "pass" s = true \/ case_variant "fail" s = true)
        /\ Inner.convert_bool_to_pass_fail (JStr s)
           <> convert_bool_to_pass_fail (JStr s)).
Proof. intros [s [_ H]]. apply H, inner_eq_outer. Qed.

(** C10.  Each normalizer is idempotent, and the module-level one, which
    the detail view applies to a column the nested one has filled, leaves
    that value as it is. *)
Theorem normalizer_idempotent (value : json) :
  Inner.convert_bool_to_pass_fail (Inner.convert_bool_to_pass_fail value)
  = Inner.convert_bool_to_pass_fail value
  /\ convert_bool_to_pass_fail (convert_bool_to_pass_fail value)
     = convert_bool_to_pass_fail value
  /\ convert_bool_to_pass_fail (Inner.convert_bool_to_pass_fail value)
     = Inner.convert_bool_to_pass_fail value.
Proof.
  rewrite !inner_meets_spec, !outer_meets_spec, !normalize_spec_idem.
  repeat split; reflexivity.
Qed.

(** ** Dicts and column names *)

Lemma dict_get_set (d : dict) (k c : string) (v : json) :
  dict_get (dict_set d k v) c = if String.eqb c k then Some v else dict_get d c.
Proof.
  induction d as [|[k' v'] d IH]; cbn [dict_set dict_get].
  - now rewrite String.eqb_sym.
  - destruct (String.eqb k' k) eqn:Ek; cbn [dict_get].
    + apply String.eqb_eq in Ek; subst k'.
      rewrite (String.eqb_sym c k). now destruct (String.eqb k c).
    + rewrite IH. destruct (String.eqb k' c) eqn:Ec; [|reflexivity].
      apply String.eqb_eq in Ec; subst k'. now rewrite Ek.
Qed.

Lemma dict_get_del (d : dict) (k c : string) :
  dict_get (dict_del d k) c = if String.eqb c k then None else dict_get d c.
Proof.
  induction d as [|[k' v'] d IH]; cbn [dict_del dict_get].
  - now destruct (String.eqb c k).
  - destruct (String.eqb k' k) eqn:Ek; cbn [dict_get]; rewrite IH.
    + apply String.eqb_eq in Ek; subst k'.
      rewrite (String.eqb_sym c k). now destruct (String.eqb k c).
    + destruct (String.eqb k' c) eqn:Ec; [|reflexivity].
      apply String.eqb_eq in Ec; subst k'. now rewrite Ek.
Qed.

Lemma eqb_append_same (p a b : string) :
  String.eqb (p ++ a) (p ++ b) = String.eqb a b.
Proof.
  induction p as [|c p IH]; cbn [append String.eqb]; [reflexivity|].
  now rewrite Ascii.eqb_refl.
Qed.

Lemma eqb_append_nil (p a : string) :
  String.eqb (p ++ a) p = String.eqb a "".
Proof.
  induction p as [|c p IH]; cbn [append String.eqb]; [reflexivity|].
  now rewrite Ascii.eqb_refl.
Qed.

(** The column of a kind differs from its [_reason] and
    [_which_one_executed] columns, and these from one another. *)
Lemma reason_column_fresh (eval_type : string) :
  String.eqb ("eval_" ++ eval_type) ("eval_" ++ eval_type ++ "_reason") = false.
Proof. now rewrite eqb_append_same, String.eqb_sym, eqb_append_nil. Qed.

Lemma which_column_fresh (eval_type : string) :
  String.eqb ("eval_" ++ eval_type) ("eval_" ++ eval_type ++ "_which_one_executed")
  = false.
Proof. now rewrite eqb_append_same, String.eqb_sym, eqb_append_nil. Qed.

Lemma which_reason_columns_differ (eval_type : string) :
  String.eqb ("eval_" ++ eval_type ++ "_which_one_executed")
             ("eval_" ++ eval_type ++ "_reason") = false.
Proof. now rewrite !eqb_append_same. Qed.

(** Every column the loop writes begins with [eval_]. *)
Lemma eval_column_prefix (c rest : string) :
  String.prefix "eval_" c = false -> String.eqb c ("eval_" ++ rest) = false.
Proof.
  intro H. apply String.eqb_neq. intro E; subst c.
  destruct rest; cbn in H; discriminate.
Qed.

(** ** One turn of the loop over the evaluation results *)

Lemma shape_all_turn (record : dict) (before after : dict)
      (eval_type : string) (result : json) :
  shape_all record (before ++ (eval_type, result) :: after)
  = shape_all (shape (shape_all record before) eval_type result) after.
Proof. unfold shape_all. now rewrite fold_left_app. Qed.

Lemma shape_decision_accuracy (record : dict) (result : json) :
  shape record "decision_accuracy" result
  = dict_set record "eval_decision_accuracy"
             (Inner.convert_bool_to_pass_fail result).
Proof. reflexivity. Qed.

(** The turn of the loop for the kind [decision_accuracy], whatever its
    result is (a mapping with recognised keys included), is the one write
    [eval_decision_accuracy = normalize(result)]: every other column, the
    [_reason] and [_which_one_executed] columns among them, is as it was
    before the turn; and this is the turn taken wherever the kind stands in
    the evaluation results. *)
Lemma decision_accuracy_turn (record : dict) (result : json) :
  let record' := shape record "decision_accuracy" result in
  record' = dict_set record "eval_decision_accuracy"
                     (Inner.convert_bool_to_pass_fail result)
  /\ (forall c : string,
         dict_get record' c
         = if String.eqb c "eval_decision_accuracy"
           then Some (Inner.convert_bool_to_pass_fail result)
           else dict_get record c)
  /\ dict_get record' "eval_decision_accuracy_reason"
     = dict_get record "eval_decision_accuracy_reason"
  /\ dict_get record' "eval_decision_accuracy_which_one_executed"
     = dict_get record "eval_decision_accuracy_which_one_executed"
  /\ (forall (start before after : dict),
         shape_all start (before ++ ("decision_accuracy", result) :: after)
         = shape_all (dict_set (shape_all start before) "eval_decision_accuracy"
                               (Inner.convert_bool_to_pass_fail result))
                     after).
Proof.
  cbv zeta. rewrite shape_decision_accuracy.
  repeat split.
  - intro c. apply dict_get_set.
  - now rewrite dict_get_set.
  - now rewrite dict_get_set.
  - intros. now rewrite shape_all_turn, shape_decision_accuracy.
Qed.

Lemma shape_grounded (record result : dict) (eval_type : string) (grounded : json) :
  eval_type <> "decision_accuracy" ->
  dict_get result "grounded" = Some grounded ->
  shape record eval_type (JObj result)
  = match dict_get result "reason" with
    | Some reason =>
        dict_set (dict_set record ("eval_" ++ eval_type)
                           (Inner.convert_bool_to_pass_fail grounded))
                 ("eval_" ++ eval_type ++ "_reason") reason
    | None =>
        dict_set record ("eval_" ++ eval_type)
                 (Inner.convert_bool_to_pass_fail grounded)
    end.
Proof.
  intros Hkind Hg. unfold shape.
  apply String.eqb_neq in Hkind. now rewrite Hkind, Hg.
Qed.

(** For a kind other than [decision_accuracy] whose result is a mapping
    with the key [grounded], the turn of the loop writes
    [eval_<kind> = normalize(result["grounded"])] and, exactly when [reason]
    is present, [eval_<kind>_reason = result["reason"]] as it is; it writes
    nothing else, no [_which_one_executed] column in particular; and the keys
    of the later rules ([Eval_Status], [negation_pass],
    [which_one_executed]), present or not and whatever they hold, have no
    effect on it. *)
Lemma grounded_turn (record result : dict) (eval_type : string) (grounded : json)
        (Hkind : eval_type <> "decision_accuracy")
        (Hgrounded : dict_get result "grounded" = Some grounded) :
  let record' := shape record eval_type (JObj result) in
  record' = match dict_get result "reason" with
            | Some reason =>
                dict_set (dict_set record ("eval_" ++ eval_type)
                                   (Inner.convert_bool_to_pass_fail grounded))
                         ("eval_" ++ eval_type ++ "_reason") reason
            | None =>
                dict_set record ("eval_" ++ eval_type)
                         (Inner.convert_bool_to_pass_fail grounded)
            end
  /\ dict_get record' ("eval_" ++ eval_type)
     = Some (Inner.convert_bool_to_pass_fail grounded)
  /\ dict_get record' ("eval_" ++ eval_type ++ "_reason")
     = match dict_get result "reason" with
       | Some reason => Some reason
       | None => dict_get record ("eval_" ++ eval_type ++ "_reason")
       end
  /\ dict_get record' ("eval_" ++ eval_type ++ "_which_one_executed")
     = dict_get record ("eval_" ++ eval_type ++ "_which_one_executed")
  /\ (forall c : string,
         dict_get record' c
         = if String.eqb c ("eval_" ++ eval_type) then
             Some (Inner.convert_bool_to_pass_fail grounded)
           else if String.eqb c ("eval_" ++ eval_type ++ "_reason") then
             match dict_get result "reason" with
             | Some reason => Some reason
             | None => dict_get record c
             end
           else dict_get record c)
  /\ (forall other : json,
         shape record eval_type (JObj (dict_set result "Eval_Status" other)) = record'
         /\ shape record eval_type (JObj (dict_set result "negation_pass" other)) = record'
         /\ shape record eval_type (JObj (dict_set result "which_one_executed" other))
            = record')
  /\ (forall (start before after : dict),
         shape_all start (before ++ (eval_type, JObj result) :: after)
         = shape_all (shape (shape_all start before) eval_type (JObj result)) after).
Proof.
  cbv zeta.
  assert (Hall : forall c : string,
             dict_get (shape record eval_type (JObj result)) c
             = if String.eqb c ("eval_" ++ eval_type) then
                 Some (Inner.convert_bool_to_pass_fail grounded)
               else if String.eqb c ("eval_" ++ eval_type ++ "_reason") then
                 match dict_get result "reason" with
                 | Some reason => Some reason
                 | None => dict_get record c
                 end
               else dict_get record c).
  { intro c. rewrite (shape_grounded _ _ _ _ Hkind Hgrounded).
    destruct (dict_get result "reason") as [reason|]; rewrite !dict_get_set.
    - destruct (String.eqb c ("eval_" ++ eval_type ++ "_reason")) eqn:Er;
        [|reflexivity].
      apply String.eqb_eq in Er; subst c.
      now rewrite String.eqb_sym, reason_column_fresh.
    - now destruct (String.eqb c ("eval_" ++ eval_type)),
                   (String.eqb c ("eval_" ++ eval_type ++ "_reason")). }
  split; [apply (shape_grounded _ _ _ _ Hkind Hgrounded)|].
  split; [now rewrite Hall, String.eqb_refl|].
  split; [now rewrite Hall, String.eqb_sym, reason_column_fresh, String.eqb_refl|].
  split.
  { rewrite Hall, String.eqb_sym, which_column_fresh, which_reason_columns_differ.
    reflexivity. }
  split; [exact Hall|].
  split; [|intros; apply shape_all_turn].
  intro other.
  rewrite (shape_grounded record result _ _ Hkind Hgrounded).
  repeat split;
    (erewrite shape_grounded;
     [ rewrite dict_get_set; reflexivity
     | assumption
     | rewrite dict_get_set; exact Hgrounded ]).
Qed.

(** The writes of the fifth rule: one column per member of the mapping. *)
Lemma shape_other (record result : dict) (eval_type : string) :
  eval_type <> "decision_accuracy" ->
  dict_get result "grounded" = None ->
  dict_get result "Eval_Status" = None ->
  dict_get result "negation_pass" = None ->
  shape record eval_type (JObj result)
  = fold_left
      (fun record kv =>
         dict_set record ("eval_" ++ eval_type ++ "_" ++ fst kv)
                  (Inner.convert_bool_to_pass_fail (snd kv)))
      result record.
Proof.
  intros Hkind Hg He Hn. unfold shape.
  apply String.eqb_neq in Hkind. now rewrite Hkind, Hg, He, Hn.
Qed.

Lemma subkey_column_eqb (eval_type a b : string) :
  String.eqb ("eval_" ++ eval_type ++ "_" ++ a) ("eval_" ++ eval_type ++ "_" ++ b)
  = String.eqb a b.
Proof. now rewrite !eqb_append_same. Qed.

Lemma fold_subkeys_get (eval_type : string) (result record : dict) (c : string) :
  NoDup (keys result) ->
  dict_get
    (fold_left
       (fun record kv =>
          dict_set record ("eval_" ++ eval_type ++ "_" ++ fst kv)
                   (Inner.convert_bool_to_pass_fail (snd kv)))
       result record) c
  = match find (fun kv => String.eqb c ("eval_" ++ eval_type ++ "_" ++ fst kv)) result with
    | Some kv => Some (Inner.convert_bool_to_pass_fail (snd kv))
    | None => dict_get record c
    end.
Proof.
  revert record.
  induction result as [|[k v] result IH]; intros record Hnd; [reflexivity|].
  cbn [keys List.map fst] in Hnd. apply NoDup_cons_iff in Hnd as [Hk Hnd].
  cbn [fold_left find fst snd]. rewrite (IH _ Hnd), dict_get_set.
  destruct (String.eqb c ("eval_" ++ eval_type ++ "_" ++ k)) eqn:Ec.
  - destruct (find _ result) as [[k' v']|] eqn:Ef; [|reflexivity].
    exfalso. apply find_some in Ef as [Hin Hc]. cbn [fst] in Hc.
    apply String.eqb_eq in Ec, Hc. rewrite Ec in Hc.
    apply String.eqb_eq in Hc. rewrite subkey_column_eqb in Hc.
    apply String.eqb_eq in Hc; subst k'.
    apply Hk. change k with (fst (k, v')). now apply in_map.
  - reflexivity.
Qed.

Lemma find_subkey (eval_type : string) (result : dict) (subkey : string) :
  match find (fun kv => String.eqb ("eval_" ++ eval_type ++ "_" ++ subkey)
                                   ("eval_" ++ eval_type ++ "_" ++ fst kv)) result with
  | Some kv => Some (snd kv)
  | None => None
  end = dict_get result subkey.
Proof.
  induction result as [|[k v] result IH]; cbn [find dict_get fst snd]; [reflexivity|].
  rewrite subkey_column_eqb, (String.eqb_sym subkey k).
  now destruct (String.eqb k subkey).
Qed.

(** For a kind other than [decision_accuracy] whose result is a mapping
    with none of the keys [grounded], [Eval_Status], [negation_pass], the
    turn of the loop writes, for every member [(subkey, subvalue)] of the
    mapping, the column [eval_<kind>_<subkey> = normalize(subvalue)], and
    leaves every other column as it was; a subvalue that is itself a mapping
    (or a list) is stored whole, one level down and no further. *)
Lemma other_mapping_turn (record result : dict) (eval_type : string)
        (Hkind : eval_type <> "decision_accuracy")
        (Hgrounded : dict_get result "grounded" = None)
        (Hstatus : dict_get result "Eval_Status" = None)
        (Hnegation : dict_get result "negation_pass" = None)
        (Hkeys : NoDup (keys result)) :
  let record' := shape record eval_type (JObj result) in
  record' = fold_left
              (fun record kv =>
                 dict_set record ("eval_" ++ eval_type ++ "_" ++ fst kv)
                          (Inner.convert_bool_to_pass_fail (snd kv)))
              result record
  /\ (forall subkey : string,
         dict_get record' ("eval_" ++ eval_type ++ "_" ++ subkey)
         = match dict_get result subkey with
           | Some subvalue => Some (Inner.convert_bool_to_pass_fail subvalue)
           | None => dict_get record ("eval_" ++ eval_type ++ "_" ++ subkey)
           end)
  /\ (forall subkey : string,
         dict_get record' ("eval_" ++ eval_type ++ "_" ++ subkey)
         = match dict_get result subkey with
           | Some (JObj nested) => Some (JObj nested)
           | Some (JArr nested) => Some (JArr nested)
           | Some subvalue => Some (Inner.convert_bool_to_pass_fail subvalue)
           | None => dict_get record ("eval_" ++ eval_type ++ "_" ++ subkey)
           end)
  /\ (forall c : string,
         dict_get record' c
         = match find (fun kv => String.eqb c ("eval_" ++ eval_type ++ "_" ++ fst kv))
                      result with
           | Some kv => Some (Inner.convert_bool_to_pass_fail (snd kv))
           | None => dict_get record c
           end)
  /\ (forall (start before after : dict),
         shape_all start (before ++ (eval_type, JObj result) :: after)
         = shape_all (shape (shape_all start before) eval_type (JObj result)) after).
Proof.
  cbv zeta. rewrite (shape_other _ _ _ Hkind Hgrounded Hstatus Hnegation).
  assert (Hsub : forall subkey : string,
             dict_get
               (fold_left
                  (fun record kv =>
                     dict_set record ("eval_" ++ eval_type ++ "_" ++ fst kv)
                              (Inner.convert_bool_to_pass_fail (snd kv)))
                  result record) ("eval_" ++ eval_type ++ "_" ++ subkey)
             = match dict_get result subkey with
               | Some subvalue => Some (Inner.convert_bool_to_pass_fail subvalue)
               | None => dict_get record ("eval_" ++ eval_type ++ "_" ++ subkey)
               end).
  { intro subkey. rewrite (fold_subkeys_get _ _ _ _ Hkeys), <- (find_subkey eval_type result).
    now destruct (find _ result). }
  split; [reflexivity|].
  split; [exact Hsub|].
  split.
  { intro subkey. rewrite Hsub.
    now destruct (dict_get result subkey) as [[]|]. }
  split; [intro c; apply (fold_subkeys_get _ _ _ _ Hkeys)|].
  intros. apply shape_all_turn.
Qed.

(** ** The row of one item *)

Ltac split_lookups :=
  repeat
    (cbn [path_get present bind ret raise getitem get_default items succeeds
          andb];
     match goal with
     | |- context [match dict_get ?d ?k with _ => _ end] =>
         destruct (dict_get d k)
     | |- context [match ?v with _ => _ end] =>
         is_var v; lazymatch type of v with json => destruct v end
     | |- context [getitem ?v _] => is_var v; destruct v
     | |- context [bind (join ?sep ?v) _] => destruct (join sep v)
     | |- context [items ?v] => is_var v; destruct v
     | |- context [match join ?sep ?v with _ => _ end] =>
         destruct (join sep v)
     | |- context [succeeds (join ?sep ?v)] =>
         destruct (join sep v)
     end);
  cbn [path_get present bind ret raise getitem get_default items succeeds andb].

Lemma flatten_succeeds (py : builtins) (item : json) :
  succeeds (flatten py item) = flattens item.
Proof.
  unfold flatten, flattens, present.
  destruct item; try reflexivity.
  split_lookups; reflexivity.
Qed.

Lemma missing_required_key_fails (item : json) (path : list string) :
  In path required_keys -> path_get item path = None -> flattens item = false.
Proof.
  unfold required_keys, flattens, present. cbn [In].
  intros [<-|[<-|[<-|[<-|[<-|[<-|[<-|[<-|[]]]]]]]]] H; rewrite H;
    rewrite ?andb_false_r; reflexivity.
Qed.

Lemma strings_of_succeeds (xs : list json) :
  forallb is_string xs = true -> succeeds (strings_of xs) = true.
Proof.
  induction xs as [|x xs IH]; cbn [forallb strings_of]; [reflexivity|].
  intro H. apply andb_true_iff in H as [Hx Hxs].
  destruct x; try discriminate.
  specialize (IH Hxs). now destruct (strings_of xs).
Qed.

Lemma valid_record_flattens (item : json) :
  valid_record item = true -> flattens item = true.
Proof.
  unfold valid_record, required_keys, flattens. cbn [forallb].
  intro H.
  repeat match goal with
         | E : _ && _ = true |- _ => apply andb_true_iff in E; destruct E
         end.
  repeat match goal with E : present _ _ = true |- _ => rewrite E; clear E end.
  destruct (path_get item ["metadata"; "evaluations_run"]) as [[]|];
    try discriminate.
  destruct (path_get item ["evaluation_results"]) as [[]|]; try discriminate.
  cbn [andb]. rewrite andb_true_r.
  unfold join. cbn [iterate bind ret].
  match goal with E : forallb is_string _ = true |- _ =>
    apply strings_of_succeeds in E; revert E end.
  now destruct (strings_of _).
Qed.

Lemma flattens_without_rationale (item : json) :
  flattens (without_rationale item) = flattens item.
Proof.
  destruct item as [ | | | | | |d]; try reflexivity.
  unfold without_rationale.
  destruct (dict_get d "input_data") as [[ | | | | | |input_data]|] eqn:E;
    try reflexivity.
  unfold flattens, present. cbn [path_get].
  rewrite !dict_get_set. cbn [String.eqb Ascii.eqb Bool.eqb].
  rewrite E, !dict_get_del. reflexivity.
Qed.

Lemma flattens_without_reasons (item : json) :
  flattens (without_reasons item) = flattens item.
Proof.
  destruct item as [ | | | | | |d]; try reflexivity.
  unfold without_reasons.
  destruct (dict_get d "evaluation_results") as [[ | | | | | |eval_results]|] eqn:E;
    try reflexivity.
  unfold flattens, present. cbn [path_get].
  rewrite !dict_get_set. cbn [String.eqb Ascii.eqb Bool.eqb].
  rewrite E. reflexivity.
Qed.

(** ** The loop over the items *)

Lemma flatten_loop_rows (py : builtins)
      (data : list json) (records rows : list dict) :
  List.map (flatten py) data = List.map inr rows ->
  flatten_loop py records data = inr (records ++ rows).
Proof.
  revert records rows.
  induction data as [|item data IH]; intros records [|row rows] H;
    try discriminate.
  - cbn. now rewrite app_nil_r.
  - cbn [List.map] in H. injection H as Hitem Hrest.
    cbn [flatten_loop]. rewrite Hitem. cbn [bind].
    rewrite (IH _ _ Hrest), <- app_assoc. reflexivity.
Qed.

Lemma all_succeed_rows (py : builtins) (data : list json) :
  forallb (fun item => succeeds (flatten py item)) data = true ->
  exists rows : list dict,
    List.map (flatten py) data = List.map inr rows.
Proof.
  induction data as [|item data IH]; cbn [forallb]; intro H.
  - now exists [].
  - apply andb_true_iff in H as [Hitem Hdata].
    destruct (IH Hdata) as [rows Hrows].
    destruct (flatten py item) as [e|row] eqn:E; [discriminate|].
    exists (row :: rows). cbn [List.map]. now rewrite E, Hrows.
Qed.

Lemma flatten_loop_fails (py : builtins)
      (data : list json) (records : list dict) (bad : json) :
  In bad data ->
  succeeds (flatten py bad) = false ->
  succeeds (flatten_loop py records data) = false.
Proof.
  revert records.
  induction data as [|item data IH]; intros records Hin Hbad; [destruct Hin|].
  cbn [flatten_loop].
  destruct (flatten py item) as [e|row] eqn:E; [reflexivity|].
  cbn [bind]. destruct Hin as [->|Hin].
  - rewrite E in Hbad. discriminate.
  - now apply IH.
Qed.

(** ** The base columns survive the evaluation columns *)

Lemma fold_subkeys_keeps (eval_type : string) (result record : dict) (c : string) :
  String.prefix "eval_" c = false ->
  dict_get
    (fold_left
       (fun record kv =>
          dict_set record ("eval_" ++ eval_type ++ "_" ++ fst kv)
                   (Inner.convert_bool_to_pass_fail (snd kv)))
       result record) c
  = dict_get record c.
Proof.
  intro Hc. revert record.
  induction result as [|kv result IH]; intro record; [reflexivity|].
  cbn [fold_left]. now rewrite IH, dict_get_set, eval_column_prefix.
Qed.

Lemma shape_keeps (record : dict) (eval_type : string) (result : json) (c : string) :
  String.prefix "eval_" c = false ->
  dict_get (shape record eval_type result) c = dict_get record c.
Proof.
  intro Hc. unfold shape.
  destruct (String.eqb eval_type "decision_accuracy");
    [now rewrite dict_get_set, eval_column_prefix|].
  destruct result;
    try (now rewrite dict_get_set, eval_column_prefix).
  repeat match goal with
         | |- context [match dict_get ?d ?k with _ => _ end] =>
             destruct (dict_get d k)
         end;
    rewrite ?dict_get_set, ?eval_column_prefix by exact Hc;
    try reflexivity.
  now apply fold_subkeys_keeps.
Qed.

Lemma shape_all_keeps (eval_results record : dict) (c : string) :
  String.prefix "eval_" c = false ->
  dict_get (shape_all record eval_results) c = dict_get record c.
Proof.
  intro Hc. unfold shape_all. revert record.
  induction eval_results as [|kv eval_results IH]; intro record; [reflexivity|].
  cbn [fold_left]. now rewrite IH, shape_keeps.
Qed.

Lemma flatten_row (py : builtins) (item : json) (row : dict) :
  flatten py item = inr row ->
  exists (base eval_results : dict) (jid : json),
    path_get item ["input_data"; "jid"] = Some jid
    /\ dict_get base "jid"
       = Some (JStr (Str.upper (upper_other py) (str py jid)))
    /\ row = shape_all base eval_results.
Proof.
  unfold flatten.
  destruct item; try discriminate.
  split_lookups; intro H; try discriminate;
    unfold ret in H; injection H as <-.
  all: eexists _, _, _; split; [reflexivity|]; split; [|reflexivity]; reflexivity.
Qed.

(** ** The loader *)


(** C8.  With no uploaded file and no default file the load returns the
    table with no row, and the page shows the no-data warning, not the
    error banner. *)
Theorem no_file_empty_table (py : builtins) :
  load_json_data py None None = inr []
  /\ page_after_load py None None = NoDataWarning.
Proof. split; reflexivity. Qed.

(** C5.  When every record of the input sequence is valid, the load
    returns a table with as many rows as there are records, and the rows
    are the rows of the records, one each, in the order of the input:
    nothing is dropped, merged or moved. *)
Theorem one_row_per_record (py : builtins)
        (uploaded_file default_file : option file) (data : list json)
        (Hread : read_data uploaded_file default_file = inr (JArr data))
        (Hvalid : forallb valid_record data = true) :
  exists df : list dict,
    load_json_data py uploaded_file default_file = inr df
    /\ List.length df = List.length data
    /\ List.map (flatten py) data = List.map inr df.
Proof.
  assert (Hall : forallb (fun item => succeeds (flatten py item)) data = true).
  { apply forallb_forall. intros item Hin.
    rewrite flatten_succeeds. apply valid_record_flattens.
    apply (proj1 (forallb_forall _ _) Hvalid _ Hin). }
  destruct (all_succeed_rows _ _ Hall) as [rows Hrows].
  exists rows. split; [|split].
  - unfold load_json_data. rewrite Hread. cbn [bind iterate ret].
    apply (flatten_loop_rows py data [] rows Hrows).
  - rewrite <- (length_map (flatten py) data), Hrows.
    symmetry. apply length_map.
  - exact Hrows.
Qed.

(** C6.  When a record of the input sequence lacks one of the required
    keys, the load raises: it returns no table, and the page shows the error
    banner only.  Taking [rationale] out of a record, or [reason] out of its
    result mappings, never turns a row into an error (nor an error into a
    row). *)
Theorem missing_required_key_fails_load (py : builtins)
        (uploaded_file default_file : option file)
        (data : list json) (bad : json) (path : list string)
        (Hread : read_data uploaded_file default_file = inr (JArr data))
        (Hbad : In bad data)
        (Hrequired : In path required_keys)
        (Hmissing : path_get bad path = None) :
  (exists e : error,
      load_json_data py uploaded_file default_file = inl e
      /\ page_after_load py uploaded_file default_file = ErrorBanner e)
  /\ (forall item : json,
         succeeds (flatten py (without_rationale item))
         = succeeds (flatten py item))
  /\ (forall item : json,
         succeeds (flatten py (without_reasons item))
         = succeeds (flatten py item)).
Proof.
  split; [|split].
  - assert (Hfail : succeeds (load_json_data py uploaded_file default_file)
                    = false).
    { unfold load_json_data. rewrite Hread. cbn [bind iterate ret].
      apply (flatten_loop_fails py data [] bad Hbad).
      rewrite flatten_succeeds.
      apply (missing_required_key_fails bad path Hrequired Hmissing). }
    unfold page_after_load.
    destruct (load_json_data py uploaded_file default_file) as [e|df];
      [|discriminate].
    now exists e.
  - intro item. now rewrite !flatten_succeeds, flattens_without_rationale.
  - intro item. now rewrite !flatten_succeeds, flattens_without_reasons.
Qed.

(** ** The examples of section 8, run *)

Example flatten_sample_record :
  flatten plain sample_record = inr sample_row.
Proof. reflexivity. Qed.

Example flatten_sample_record_no_jid :
  flatten plain sample_record_no_jid = inl (KeyError "jid").
Proof. reflexivity. Qed.

Example shape_decision_accuracy_mapping :
  shape [] "decision_accuracy" (JObj sample_grounded)
  = [ ("eval_decision_accuracy", JObj sample_grounded) ].
Proof. reflexivity. Qed.

(** A later kind can write the column an earlier kind has written: the
    loop keeps the last value. *)
Example later_kind_overwrites :
  shape_all [] [ ("decision_accuracy", JBool true);
                 ("decision", JObj [("accuracy", JStr "n/a")]) ]
  = [ ("eval_decision_accuracy", JStr "n/a") ].
Proof. reflexivity. Qed.

(** ** Instances *)

Lemma grounded_turn_instance :
  "groundedness" <> "decision_accuracy"
  /\ dict_get sample_grounded "grounded" = Some (JBool false)
  /\ shape [] "groundedness" (JObj sample_grounded)
     = [ ("eval_groundedness", JStr "Fail");
         ("eval_groundedness_reason", JStr "missing citation") ].
Proof.
  assert (Hkind : "groundedness" <> "decision_accuracy") by discriminate.
  split; [exact Hkind|]. split; [reflexivity|].
  exact (proj1 (grounded_turn [] sample_grounded "groundedness" (JBool false)
                              Hkind eq_refl)).
Defined.

Lemma other_mapping_turn_instance :
  "custom_check" <> "decision_accuracy"
  /\ dict_get sample_custom "grounded" = None
  /\ dict_get sample_custom "Eval_Status" = None
  /\ dict_get sample_custom "negation_pass" = None
  /\ NoDup (keys sample_custom)
  /\ shape [] "custom_check" (JObj sample_custom)
     = [ ("eval_custom_check_score", JFloat 1 (-1));
         ("eval_custom_check_notes", JStr "ok");
         ("eval_custom_check_detail", JObj [("passed", JBool true)]) ].
Proof.
  assert (Hkind : "custom_check" <> "decision_accuracy") by discriminate.
  assert (Hkeys : NoDup (keys sample_custom)).
  { repeat constructor; cbn; intuition discriminate. }
  split; [exact Hkind|]. do 3 (split; [reflexivity|]). split; [exact Hkeys|].
  exact (proj1 (other_mapping_turn [] sample_custom "custom_check"
                                   Hkind eq_refl eq_refl eq_refl Hkeys)).
Defined.

Lemma one_row_per_record_witness :
  read_data (Some (Json (JArr [sample_record; sample_record]))) None
  = inr (JArr [sample_record; sample_record])
  /\ forallb valid_record [sample_record; sample_record] = true
  /\ exists df : list dict,
       load_json_data plain
         (Some (Json (JArr [sample_record; sample_record]))) None = inr df
       /\ List.length df = 2
       /\ List.map (flatten plain) [sample_record; sample_record]
          = List.map inr df.
Proof.
  split; [reflexivity|]. split; [reflexivity|].
  exact (one_row_per_record plain
           (Some (Json (JArr [sample_record; sample_record]))) None
           [sample_record; sample_record] eq_refl eq_refl).
Defined.

Lemma missing_required_key_fails_load_witness :
  read_data None (Some (Json (JArr [sample_record; sample_record_no_jid])))
  = inr (JArr [sample_record; sample_record_no_jid])
  /\ In sample_record_no_jid [sample_record; sample_record_no_jid]
  /\ In ["input_data"; "jid"] required_keys
  /\ path_get sample_record_no_jid ["input_data"; "jid"] = None
  /\ exists e : error,
       load_json_data plain None
         (Some (Json (JArr [sample_record; sample_record_no_jid]))) = inl e
       /\ page_after_load plain None
            (Some (Json (JArr [sample_record; sample_record_no_jid])))
          = ErrorBanner e.
Proof.
  assert (Hbad : In sample_record_no_jid [sample_record; sample_record_no_jid])
    by (right; left; reflexivity).
  assert (Hrequired : In ["input_data"; "jid"] required_keys)
    by (right; left; reflexivity).
  split; [reflexivity|]. split; [exact Hbad|]. split; [exact Hrequired|].
  split; [reflexivity|].
  exact (proj1 (missing_required_key_fails_load plain None
                  (Some (Json (JArr [sample_record; sample_record_no_jid])))
                  [sample_record; sample_record_no_jid] sample_record_no_jid
                  ["input_data"; "jid"] eq_refl Hbad Hrequired eq_refl)).
Defined.


(** * Further properties of the flattener *)

(** ** The remaining rules of a turn *)

Lemma reason_which_columns_differ (eval_type : string) :
  String.eqb ("eval_" ++ eval_type ++ "_reason")
             ("eval_" ++ eval_type ++ "_which_one_executed") = false.
Proof. now rewrite !eqb_append_same. Qed.

Lemma shape_eval_status (record result : dict) (eval_type : string) (status : json) :
  eval_type <> "decision_accuracy" ->
  dict_get result "grounded" = None ->
  dict_get result "Eval_Status" = Some status ->
  shape record eval_type (JObj result)
  = let record :=
      dict_set record ("eval_" ++ eval_type)
               (Inner.convert_bool_to_pass_fail status) in
    let record :=
      match dict_get result "which_one_executed" with
      | Some which =>
          dict_set record ("eval_" ++ eval_type ++ "_which_one_executed") which
      | None => record
      end in
    match dict_get result "reason" with
    | Some reason => dict_set record ("eval_" ++ eval_type ++ "_reason") reason
    | None => record
    end.
Proof.
  intros Hkind Hg Hs. unfold shape.
  apply String.eqb_neq in Hkind. now rewrite Hkind, Hg, Hs.
Qed.

Lemma shape_negation_pass (record result : dict) (eval_type : string) (negation : json) :
  eval_type <> "decision_accuracy" ->
  dict_get result "grounded" = None ->
  dict_get result "Eval_Status" = None ->
  dict_get result "negation_pass" = Some negation ->
  shape record eval_type (JObj result)
  = let record :=
      dict_set record ("eval_" ++ eval_type)
               (Inner.convert_bool_to_pass_fail negation) in
    let record :=
      match dict_get result "which_one_executed" with
      | Some which =>
          dict_set record ("eval_" ++ eval_type ++ "_which_one_executed") which
      | None => record
      end in
    match dict_get result "reason" with
    | Some reason => dict_set record ("eval_" ++ eval_type ++ "_reason") reason
    | None => record
    end.
Proof.
  intros Hkind Hg Hs Hn. unfold shape.
  apply String.eqb_neq in Hkind. now rewrite Hkind, Hg, Hs, Hn.
Qed.

(** The three columns of the third and fourth rules, read back. *)
Lemma primary_which_reason_get (record : dict) (eval_type c : string)
      (primary : json) (which reason : option json) :
  dict_get
    (let record := dict_set record ("eval_" ++ eval_type) primary in
     let record :=
       match which with
       | Some which =>
           dict_set record ("eval_" ++ eval_type ++ "_which_one_executed") which
       | None => record
       end in
     match reason with
     | Some reason => dict_set record ("eval_" ++ eval_type ++ "_reason") reason
     | None => record
     end) c
  = if String.eqb c ("eval_" ++ eval_type) then Some primary
    else if String.eqb c ("eval_" ++ eval_type ++ "_which_one_executed") then
      match which with Some which => Some which | None => dict_get record c end
    else if String.eqb c ("eval_" ++ eval_type ++ "_reason") then
      match reason with Some reason => Some reason | None => dict_get record c end
    else dict_get record c.
Proof.
  cbv zeta.
  destruct (String.eqb c ("eval_" ++ eval_type)) eqn:Ep.
  - apply String.eqb_eq in Ep; subst c.
    destruct which, reason; rewrite ?dict_get_set;
      now rewrite ?reason_column_fresh, ?which_column_fresh, ?String.eqb_refl.
  - destruct (String.eqb c ("eval_" ++ eval_type ++ "_which_one_executed")) eqn:Ew.
    + apply String.eqb_eq in Ew; subst c.
      destruct which, reason; rewrite ?dict_get_set;
        now rewrite ?which_reason_columns_differ, ?String.eqb_refl, ?Ep.
    + destruct which, reason; rewrite ?dict_get_set; rewrite ?Ep, ?Ew;
        now destruct (String.eqb c ("eval_" ++ eval_type ++ "_reason")).
Qed.

(** X1.  For a kind other than [decision_accuracy] whose result is a
    mapping with [Eval_Status] and without [grounded], the turn writes
    [eval_<kind> = normalize(result["Eval_Status"])], the
    [_which_one_executed] and [_reason] columns exactly when these keys are
    present, their values as they are, and no other column; [negation_pass],
    present or not, has no effect. *)
Theorem eval_status_rule (record result : dict) (eval_type : string) (status : json)
        (Hkind : eval_type <> "decision_accuracy")
        (Hgrounded : dict_get result "grounded" = None)
        (Hstatus : dict_get result "Eval_Status" = Some status) :
  let record' := shape record eval_type (JObj result) in
  (forall c : string,
      dict_get record' c
      = if String.eqb c ("eval_" ++ eval_type) then
          Some (Inner.convert_bool_to_pass_fail status)
        else if String.eqb c ("eval_" ++ eval_type ++ "_which_one_executed") then
          match dict_get result "which_one_executed" with
          | Some which => Some which
          | None => dict_get record c
          end
        else if String.eqb c ("eval_" ++ eval_type ++ "_reason") then
          match dict_get result "reason" with
          | Some reason => Some reason
          | None => dict_get record c
          end
        else dict_get record c)
  /\ (forall other : json,
         shape record eval_type (JObj (dict_set result "negation_pass" other))
         = record').
Proof.
  cbv zeta. split.
  - intro c. rewrite (shape_eval_status _ _ _ _ Hkind Hgrounded Hstatus).
    apply primary_which_reason_get.
  - intro other.
    rewrite (shape_eval_status record result _ _ Hkind Hgrounded Hstatus).
    erewrite shape_eval_status;
      [ rewrite !dict_get_set; reflexivity
      | assumption
      | rewrite dict_get_set; exact Hgrounded
      | rewrite dict_get_set; exact Hstatus ].
Qed.

(** X2.  For a kind other than [decision_accuracy] whose result is a
    mapping with [negation_pass] and with neither [grounded] nor
    [Eval_Status], the turn writes
    [eval_<kind> = normalize(result["negation_pass"])], the
    [_which_one_executed] and [_reason] columns exactly when these keys are
    present, and no other column. *)
Theorem negation_pass_rule (record result : dict) (eval_type : string)
        (negation : json)
        (Hkind : eval_type <> "decision_accuracy")
        (Hgrounded : dict_get result "grounded" = None)
        (Hstatus : dict_get result "Eval_Status" = None)
        (Hnegation : dict_get result "negation_pass" = Some negation) :
  forall c : string,
    dict_get (shape record eval_type (JObj result)) c
    = if String.eqb c ("eval_" ++ eval_type) then
        Some (Inner.convert_bool_to_pass_fail negation)
      else if String.eqb c ("eval_" ++ eval_type ++ "_which_one_executed") then
        match dict_get result "which_one_executed" with
        | Some which => Some which
        | None => dict_get record c
        end
      else if String.eqb c ("eval_" ++ eval_type ++ "_reason") then
        match dict_get result "reason" with
        | Some reason => Some reason
        | None => dict_get record c
        end
      else dict_get record c.
Proof.
  intro c. rewrite (shape_negation_pass _ _ _ _ Hkind Hgrounded Hstatus Hnegation).
  apply primary_which_reason_get.
Qed.

Lemma eval_status_rule_witness :
  "alignment" <> "decision_accuracy"
  /\ dict_get sample_status "grounded" = None
  /\ dict_get sample_status "Eval_Status" = Some (JStr "FAIL")
  /\ dict_get (shape [] "alignment" (JObj sample_status)) "eval_alignment"
     = Some (JStr "Fail").
Proof.
  assert (Hkind : "alignment" <> "decision_accuracy") by discriminate.
  split; [exact Hkind|]. split; [reflexivity|]. split; [reflexivity|].
  exact (proj1 (eval_status_rule [] sample_status "alignment" (JStr "FAIL")
                                 Hkind eq_refl eq_refl) "eval_alignment").
Defined.

Lemma negation_pass_rule_witness :
  "negation" <> "decision_accuracy"
  /\ dict_get sample_negation "grounded" = None
  /\ dict_get sample_negation "Eval_Status" = None
  /\ dict_get sample_negation "negation_pass" = Some (JStr "true")
  /\ dict_get (shape [] "negation" (JObj sample_negation)) "eval_negation_reason"
     = Some (JStr "no negation found").
Proof.
  assert (Hkind : "negation" <> "decision_accuracy") by discriminate.
  split; [exact Hkind|]. do 3 (split; [reflexivity|]).
  exact (negation_pass_rule [] sample_negation "negation" (JStr "true")
                            Hkind eq_refl eq_refl eq_refl "eval_negation_reason").
Defined.

(** ** The row of an item, read off the item *)

Lemma flatten_inv (py : builtins) (item : json) (row : dict) :
  flatten py item = inr row ->
  exists (joined : string) (eval_results : dict),
    match path_get item ["metadata"; "evaluations_run"] with
    | Some runs => join ", " runs
    | None => inl TypeError
    end = inr joined
    /\ path_get item ["evaluation_results"] = Some (JObj eval_results)
    /\ row = shape_all (base_record py item joined) eval_results.
Proof.
  unfold flatten, base_record, field.
  destruct item; try discriminate.
  split_lookups; intro H; try discriminate;
    unfold ret in H; injection H as <-.
  all: eexists _, _; split; [reflexivity|]; split; reflexivity.
Qed.

Lemma flattened_fields_present (py : builtins) (item : json) (row : dict) :
  flatten py item = inr row ->
  forall path : list string,
    In path required_keys -> Some (field item path) = path_get item path.
Proof.
  intros Hrow path Hin. unfold field.
  destruct (path_get item path) eqn:E; [reflexivity|].
  pose proof (missing_required_key_fails item path Hin E) as Hf.
  rewrite <- (flatten_succeeds py), Hrow in Hf. discriminate.
Qed.

Lemma base_record_get (py : builtins) (item : json)
      (joined : string) (eval_results : dict) (c : string) :
  String.prefix "eval_" c = false ->
  dict_get (shape_all (base_record py item joined) eval_results) c
  = dict_get (base_record py item joined) c.
Proof. apply shape_all_keeps. Qed.

(** X3.  In the row of a record the columns [timestamp], [aid], [aligned],
    [gold_aligned], [title] and [source_file] hold the values of the record
    as they are ([aligned] and [gold_aligned] are not turned into
    Pass/Fail), and no evaluation result, however its kind is named, writes
    over them. *)
Theorem base_fields_pass_through (py : builtins)
        (item : json) (row : dict)
        (Hrow : flatten py item = inr row) :
  dict_get row "timestamp" = path_get item ["metadata"; "timestamp"]
  /\ dict_get row "aid" = path_get item ["input_data"; "aid"]
  /\ dict_get row "aligned" = path_get item ["input_data"; "aligned"]
  /\ dict_get row "gold_aligned" = path_get item ["input_data"; "gold_aligned"]
  /\ dict_get row "title" = path_get item ["input_data"; "title"]
  /\ dict_get row "source_file" = path_get item ["source_file"].
Proof.
  pose proof (flattened_fields_present _ _ _ Hrow) as Hp.
  destruct (flatten_inv _ _ _ Hrow) as (joined & eval_results & _ & _ & ->).
  repeat split; rewrite base_record_get by reflexivity;
    cbn [base_record dict_get String.eqb Ascii.eqb Bool.eqb];
    apply Hp; unfold required_keys; cbn [In]; tauto.
Qed.

(** X4.  The [rationale] column holds the record's [input_data.rationale]
    when the key is there (a JSON null included) and the string "N/A" when it
    is missing. *)
Theorem rationale_default (py : builtins)
        (item : json) (row : dict)
        (Hrow : flatten py item = inr row) :
  dict_get row "rationale"
  = Some match path_get item ["input_data"; "rationale"] with
         | Some rationale => rationale
         | None => JStr "N/A"
         end.
Proof.
  destruct (flatten_inv _ _ _ Hrow) as (joined & eval_results & _ & _ & ->).
  now rewrite base_record_get.
Qed.

Lemma strings_of_names (names : list string) :
  strings_of (List.map JStr names) = inr names.
Proof.
  induction names as [|n names IH]; [reflexivity|].
  cbn [List.map strings_of]. now rewrite IH.
Qed.

(** X5.  When [metadata.evaluations_run] is a list of strings, the
    [evaluations_run] column is these strings joined with ", ", in their
    order (the empty string for the empty list). *)
Theorem evaluations_run_joined (py : builtins)
        (item : json) (row : dict) (names : list string)
        (Hrow : flatten py item = inr row)
        (Hruns : path_get item ["metadata"; "evaluations_run"]
                 = Some (JArr (List.map JStr names))) :
  dict_get row "evaluations_run" = Some (JStr (String.concat ", " names)).
Proof.
  destruct (flatten_inv _ _ _ Hrow) as (joined & eval_results & Hj & _ & ->).
  rewrite Hruns in Hj. unfold join in Hj. cbn [iterate bind ret] in Hj.
  rewrite strings_of_names in Hj. cbn [bind ret] in Hj. injection Hj as <-.
  now rewrite base_record_get.
Qed.

Lemma join_string (sep s : string) :
  join sep (JStr s) = inr (String.concat sep (Str.chars s)).
Proof.
  unfold join. cbn [iterate bind ret]. now rewrite strings_of_names.
Qed.

(** X6.  When [metadata.evaluations_run] is one string rather than a list,
    the join does not raise, so that a record with the required keys and a
    mapping for [evaluation_results] still flattens; the column of its row
    is the characters of that string joined with ", ". *)
Theorem evaluations_run_string_spread (py : builtins) (item : json) (s : string)
        (Hruns : path_get item ["metadata"; "evaluations_run"] = Some (JStr s))
        (Hrequired : forallb (present item) required_keys = true)
        (Hresults : is_mapping (field item ["evaluation_results"]) = true) :
  join ", " (JStr s) = inr (String.concat ", " (Str.chars s))
  /\ exists row : dict,
       flatten py item = inr row
       /\ dict_get row "evaluations_run"
          = Some (JStr (String.concat ", " (Str.chars s))).
Proof.
  split; [apply join_string|].
  assert (Hok : succeeds (flatten py item) = true).
  { rewrite flatten_succeeds. unfold flattens.
    unfold required_keys in Hrequired. cbn [forallb] in Hrequired.
    repeat match goal with
           | E : _ && _ = true |- _ => apply andb_true_iff in E; destruct E
           end.
    repeat match goal with E : present _ _ = true |- _ => rewrite E; clear E end.
    rewrite Hruns, join_string. unfold field in Hresults.
    now destruct (path_get item ["evaluation_results"]) as [[]|]. }
  destruct (flatten py item) as [e|row] eqn:Hrow; [discriminate|].
  exists row. split; [reflexivity|].
  destruct (flatten_inv _ _ _ Hrow) as (joined & eval_results & Hj & _ & ->).
  rewrite Hruns, join_string in Hj. injection Hj as <-.
  now rewrite base_record_get.
Qed.

(** ** The layout of a row *)

Lemma dict_set_app_right (d1 d2 : dict) (k : string) (v : json) :
  dict_get d1 k = None -> dict_set (d1 ++ d2) k v = d1 ++ dict_set d2 k v.
Proof.
  induction d1 as [|[k' v'] d1 IH]; cbn [dict_get dict_set app]; [reflexivity|].
  destruct (String.eqb k' k); [discriminate|].
  intro H. now rewrite IH.
Qed.

Lemma dict_set_fresh (d : dict) (k : string) (v : json) :
  dict_get d k = None -> dict_set d k v = d ++ [(k, v)].
Proof.
  intro H. rewrite <- (app_nil_r d) at 1. now rewrite dict_set_app_right.
Qed.

Lemma prefix_eval (rest : string) : String.prefix "eval_" ("eval_" ++ rest) = true.
Proof. now destruct rest. Qed.

Section OverBase.

Variable base : dict.
Hypothesis base_has_no_eval_column :
  forall rest : string, dict_get base ("eval_" ++ rest) = None.

Lemma fold_subkeys_over_base (eval_type : string) (result evals : dict) :
  fold_left
    (fun record kv =>
       dict_set record ("eval_" ++ eval_type ++ "_" ++ fst kv)
                (Inner.convert_bool_to_pass_fail (snd kv)))
    result (base ++ evals)
  = base ++ fold_left
              (fun record kv =>
                 dict_set record ("eval_" ++ eval_type ++ "_" ++ fst kv)
                          (Inner.convert_bool_to_pass_fail (snd kv)))
              result evals.
Proof.
  revert evals. induction result as [|kv result IH]; intro evals; [reflexivity|].
  cbn [fold_left].
  now rewrite dict_set_app_right, IH by apply base_has_no_eval_column.
Qed.

Lemma shape_over_base (evals : dict) (eval_type : string) (result : json) :
  shape (base ++ evals) eval_type result = base ++ shape evals eval_type result.
Proof.
  unfold shape.
  destruct (String.eqb eval_type "decision_accuracy");
    [now apply dict_set_app_right|].
  destruct result; try (now apply dict_set_app_right).
  repeat match goal with
         | |- context [match dict_get ?d ?k with _ => _ end] =>
             destruct (dict_get d k)
         end;
    rewrite ?dict_set_app_right by apply base_has_no_eval_column;
    try reflexivity.
  apply fold_subkeys_over_base.
Qed.

Lemma shape_all_over_base (eval_results evals : dict) :
  shape_all (base ++ evals) eval_results = base ++ shape_all evals eval_results.
Proof.
  unfold shape_all. revert evals.
  induction eval_results as [|kv eval_results IH]; intro evals; [reflexivity|].
  cbn [fold_left]. now rewrite shape_over_base, IH.
Qed.

End OverBase.

Lemma base_record_no_eval_column (py : builtins) (item : json)
      (joined rest : string) :
  dict_get (base_record py item joined) ("eval_" ++ rest) = None.
Proof. reflexivity. Qed.

Lemma flatten_layout (py : builtins) (item : json) (row : dict) :
  flatten py item = inr row ->
  exists (joined : string) (eval_results : dict),
    path_get item ["evaluation_results"] = Some (JObj eval_results)
    /\ row = base_record py item joined ++ shape_all [] eval_results.
Proof.
  intro Hrow.
  destruct (flatten_inv _ _ _ Hrow) as (joined & eval_results & _ & He & ->).
  exists joined, eval_results. split; [exact He|].
  rewrite <- (app_nil_r (base_record py item joined)) at 1.
  apply shape_all_over_base. intro rest. apply base_record_no_eval_column.
Qed.

(** Writing to a dict keeps its keys distinct. *)
Lemma keys_dict_set (d : dict) (k : string) (v : json) :
  keys (dict_set d k v)
  = match dict_get d k with Some _ => keys d | None => keys d ++ [k] end.
Proof.
  induction d as [|[k' v'] d IH]; cbn [dict_set dict_get keys List.map fst app];
    [reflexivity|].
  destruct (String.eqb k' k) eqn:E; [reflexivity|].
  cbn [keys List.map fst]. fold (keys (dict_set d k v)). rewrite IH.
  now destruct (dict_get d k).
Qed.

Lemma dict_get_none_not_key (d : dict) (k : string) :
  dict_get d k = None -> ~ In k (keys d).
Proof.
  induction d as [|[k' v'] d IH]; cbn [dict_get keys List.map fst In]; [tauto|].
  destruct (String.eqb k' k) eqn:E; [discriminate|].
  apply String.eqb_neq in E. intros H [Hk|Hin]; [congruence|]. now apply IH.
Qed.

Lemma NoDup_dict_set (d : dict) (k : string) (v : json) :
  NoDup (keys d) -> NoDup (keys (dict_set d k v)).
Proof.
  intro H. rewrite keys_dict_set.
  destruct (dict_get d k) eqn:E; [exact H|].
  apply NoDup_app; [exact H | repeat constructor; intros [] | ].
  intros x Hx [Hk|[]]. subst x. now apply (dict_get_none_not_key d k).
Qed.

Lemma eval_keys_dict_set (d : dict) (rest : string) (v : json) :
  forallb (String.prefix "eval_") (keys d) = true ->
  forallb (String.prefix "eval_") (keys (dict_set d ("eval_" ++ rest) v)) = true.
Proof.
  intro H. rewrite keys_dict_set.
  destruct (dict_get d ("eval_" ++ rest)); [exact H|].
  rewrite forallb_app, H. cbn [forallb]. now rewrite prefix_eval.
Qed.

Lemma eval_dict_set (d : dict) (rest : string) (v : json) :
  eval_dict d -> eval_dict (dict_set d ("eval_" ++ rest) v).
Proof.
  intros [Hn He]. split; [now apply NoDup_dict_set | now apply eval_keys_dict_set].
Qed.

Lemma eval_dict_shape (d : dict) (eval_type : string) (result : json) :
  eval_dict d -> eval_dict (shape d eval_type result).
Proof.
  intro H. unfold shape.
  destruct (String.eqb eval_type "decision_accuracy"); [now apply eval_dict_set|].
  destruct result; try (now apply eval_dict_set).
  repeat match goal with
         | |- context [match dict_get ?d ?k with _ => _ end] =>
             destruct (dict_get d k)
         end;
    repeat apply eval_dict_set; try exact H.
  revert d H. induction members as [|kv members IH]; intros d H; [exact H|].
  cbn [fold_left]. apply IH. now apply eval_dict_set.
Qed.

Lemma eval_dict_shape_all (eval_results d : dict) :
  eval_dict d -> eval_dict (shape_all d eval_results).
Proof.
  unfold shape_all. revert d.
  induction eval_results as [|kv eval_results IH]; intros d H; [exact H|].
  cbn [fold_left]. apply IH. now apply eval_dict_shape.
Qed.

(** X7.  A row is the nine base columns, in the order of the dict literal,
    followed by the evaluation columns; the evaluation columns are what the
    loop writes into an empty dict from [evaluation_results] alone; their
    names all begin with [eval_]; and no column name occurs twice. *)
Theorem row_layout (py : builtins)
        (item : json) (row eval_results : dict)
        (Hrow : flatten py item = inr row)
        (Hresults : path_get item ["evaluation_results"] = Some (JObj eval_results)) :
  keys (firstn 9 row) = base_columns
  /\ skipn 9 row = shape_all [] eval_results
  /\ forallb (String.prefix "eval_") (keys (skipn 9 row)) = true
  /\ NoDup (keys row).
Proof.
  destruct (flatten_layout _ _ _ Hrow) as (joined & eval_results' & He & ->).
  rewrite Hresults in He. injection He as <-.
  assert (Hev : eval_dict (shape_all [] eval_results)).
  { apply eval_dict_shape_all. split; [constructor | reflexivity]. }
  destruct Hev as [Hnd Hpre].
  split; [reflexivity|]. split; [reflexivity|]. split; [exact Hpre|].
  unfold keys. rewrite map_app. apply NoDup_app.
  - cbn. repeat constructor; cbn; intuition discriminate.
  - exact Hnd.
  - intros c Hbase Hin.
    assert (Hc : String.prefix "eval_" c = true).
    { apply (proj1 (forallb_forall _ _) Hpre c Hin). }
    cbn in Hbase.
    repeat (destruct Hbase as [<-|Hbase]; [discriminate Hc|]).
    destruct Hbase.
Qed.

Lemma shape_scalar (record : dict) (kv : string * json) :
  String.eqb (fst kv) "decision_accuracy" || negb (is_mapping (snd kv)) = true ->
  shape record (fst kv) (snd kv)
  = dict_set record (fst (scalar_column kv)) (snd (scalar_column kv)).
Proof.
  destruct kv as [eval_type result]. cbn [fst snd scalar_column]. unfold shape.
  destruct (String.eqb eval_type "decision_accuracy"); [reflexivity|].
  now destruct result.
Qed.

Lemma shape_all_scalar (eval_results evals : dict) :
  NoDup (keys eval_results) ->
  forallb (fun kv => String.eqb (fst kv) "decision_accuracy"
                     || negb (is_mapping (snd kv))) eval_results = true ->
  (forall kv, In kv eval_results -> dict_get evals ("eval_" ++ fst kv) = None) ->
  shape_all evals eval_results = evals ++ List.map scalar_column eval_results.
Proof.
  unfold shape_all. revert evals.
  induction eval_results as [|kv eval_results IH]; intros evals Hnd Hs Hfresh.
  - cbn. now rewrite app_nil_r.
  - cbn [forallb] in Hs. apply andb_true_iff in Hs as [Hkv Hs].
    cbn [keys List.map] in Hnd. apply NoDup_cons_iff in Hnd as [Hk Hnd].
    cbn [fold_left List.map]. rewrite (shape_scalar _ _ Hkv).
    cbn [scalar_column fst snd].
    rewrite (dict_set_fresh evals) by (apply Hfresh; now left).
    rewrite (IH _ Hnd Hs), <- app_assoc; [reflexivity|].
    intros kv' Hin.
    rewrite <- (dict_set_fresh evals) by (apply Hfresh; now left).
    rewrite dict_get_set, eqb_append_same.
    destruct (String.eqb (fst kv') (fst kv)) eqn:E.
    + apply String.eqb_eq in E. exfalso. apply Hk. rewrite <- E.
      now apply in_map.
    + apply Hfresh. now right.
Qed.

(** X8.  When no result of a record is a mapping (the kind
    [decision_accuracy] may hold one), the evaluation columns of its row
    are one column [eval_<kind> = normalize(result)] per kind, in the order
    of [evaluation_results], and nothing else. *)
Theorem scalar_results_row (py : builtins)
        (item : json) (row eval_results : dict)
        (Hrow : flatten py item = inr row)
        (Hresults : path_get item ["evaluation_results"] = Some (JObj eval_results))
        (Hkeys : NoDup (keys eval_results))
        (Hscalar : forallb (fun kv => String.eqb (fst kv) "decision_accuracy"
                                      || negb (is_mapping (snd kv)))
                           eval_results = true) :
  skipn 9 row
  = List.map (fun kv => (("eval_" ++ fst kv)%string,
                         Inner.convert_bool_to_pass_fail (snd kv)))
             eval_results.
Proof.
  destruct (flatten_layout _ _ _ Hrow) as (joined & eval_results' & He & ->).
  rewrite Hresults in He. injection He as <-.
  change (skipn 9 (base_record py item joined ++ shape_all [] eval_results))
    with (shape_all [] eval_results).
  now rewrite (shape_all_scalar eval_results [] Hkeys Hscalar).
Qed.

Lemma fold_subkeys_frame (eval_type : string) (result record : dict) (c : string) :
  (forall subkey : string,
      String.eqb c ("eval_" ++ eval_type ++ "_" ++ subkey) = false) ->
  dict_get
    (fold_left
       (fun record kv =>
          dict_set record ("eval_" ++ eval_type ++ "_" ++ fst kv)
                   (Inner.convert_bool_to_pass_fail (snd kv)))
       result record) c
  = dict_get record c.
Proof.
  intro Hc. revert record.
  induction result as [|kv result IH]; intro record; [reflexivity|].
  cbn [fold_left]. now rewrite IH, dict_get_set, Hc.
Qed.

(** X9.  Under the fifth rule (a mapping with none of the recognised keys)
    the kind gets no column of its own: [eval_<kind>] is left as it was; and
    an empty mapping leaves the whole row as it was. *)
Theorem other_mapping_no_own_column (record result : dict) (eval_type : string)
        (Hkind : eval_type <> "decision_accuracy")
        (Hgrounded : dict_get result "grounded" = None)
        (Hstatus : dict_get result "Eval_Status" = None)
        (Hnegation : dict_get result "negation_pass" = None) :
  dict_get (shape record eval_type (JObj result)) ("eval_" ++ eval_type)
  = dict_get record ("eval_" ++ eval_type)
  /\ shape record eval_type (JObj []) = record.
Proof.
  split.
  - rewrite (shape_other _ _ _ Hkind Hgrounded Hstatus Hnegation).
    apply fold_subkeys_frame. intro subkey.
    now rewrite eqb_append_same, String.eqb_sym, eqb_append_nil.
  - now rewrite (shape_other record [] eval_type Hkind).
Qed.

(** ** What the body of the loop can raise *)

(** X10.  The body of the loop raises nothing exactly when the item has
    [metadata.timestamp], a [metadata.evaluations_run] that can be joined,
    the five fields of [input_data], [source_file], and an
    [evaluation_results] that is a mapping. *)
Theorem flatten_succeeds_exactly (py : builtins) (item : json) :
  succeeds (flatten py item)
  = present item ["metadata"; "timestamp"]
    && match path_get item ["metadata"; "evaluations_run"] with
       | Some runs => succeeds (join ", " runs)
       | None => false
       end
    && present item ["input_data"; "jid"]
    && present item ["input_data"; "aid"]
    && present item ["input_data"; "aligned"]
    && present item ["input_data"; "gold_aligned"]
    && present item ["input_data"; "title"]
    && present item ["source_file"]
    && match path_get item ["evaluation_results"] with
       | Some (JObj _) => true
       | _ => false
       end.
Proof. apply flatten_succeeds. Qed.

Lemma strings_of_raises (xs : list json) :
  match strings_of xs with inl e => e = TypeError | inr _ => True end.
Proof.
  induction xs as [|x xs IH]; cbn [strings_of]; [exact I|].
  destruct x; try reflexivity.
  destruct (strings_of xs); [exact IH | exact I].
Qed.

Lemma join_raises (sep : string) (v : json) :
  match join sep v with inl e => e = TypeError | inr _ => True end.
Proof.
  unfold join. destruct v; cbn [iterate bind raise ret]; try reflexivity.
  all: match goal with
       | |- context [strings_of ?xs] =>
           pose proof (strings_of_raises xs) as H; destruct (strings_of xs)
       end; [exact H | exact I].
Qed.

(** X11.  When the body of the loop raises, it is a [KeyError] for one of
    the eleven keys it reads, a [TypeError] or an [AttributeError]. *)
Theorem flatten_raises_only (py : builtins) (item : json) (e : error)
        (Hraise : flatten py item = inl e) :
  In e flatten_errors.
Proof.
  revert Hraise. unfold flatten.
  destruct item; try (intro H; injection H as <-; cbn; tauto).
  repeat
    (cbn [bind ret raise getitem get_default items];
     match goal with
     | |- context [match dict_get ?d ?k with _ => _ end] =>
         destruct (dict_get d k)
     | |- context [getitem ?v _] => is_var v; destruct v
     | |- context [items ?v] => is_var v; destruct v
     | |- context [bind (join ?sep ?v) _] =>
         let Hjoin := fresh "Hjoin" in
         pose proof (join_raises sep v) as Hjoin; destruct (join sep v)
     end);
    cbn [bind ret raise getitem get_default items];
    intro H; try discriminate H; injection H as <-; subst; cbn; tauto.
Qed.

(** ** The load as a whole *)

Lemma flatten_loop_inv (py : builtins)
      (data : list json) (records out : list dict) :
  flatten_loop py records data = inr out ->
  exists rows : list dict,
    out = records ++ rows
    /\ List.map (flatten py) data = List.map inr rows.
Proof.
  revert records.
  induction data as [|item data IH]; intros records H.
  - injection H as <-. exists []. now rewrite app_nil_r.
  - cbn [flatten_loop] in H.
    destruct (flatten py item) as [e|row] eqn:E; [discriminate|].
    cbn [bind] in H. destruct (IH _ H) as (rows & -> & Hrows).
    exists (row :: rows). rewrite <- app_assoc. split; [reflexivity|].
    cbn [List.map]. now rewrite E, Hrows.
Qed.

Lemma flatten_loop_first_error (py : builtins)
      (good rest : list json) (bad : json) (rows records : list dict) (e : error) :
  List.map (flatten py) good = List.map inr rows ->
  flatten py bad = inl e ->
  flatten_loop py records (good ++ bad :: rest) = inl e.
Proof.
  revert rows records.
  induction good as [|item good IH]; intros [|row rows] records Hgood Hbad;
    try discriminate.
  - cbn [app flatten_loop]. now rewrite Hbad.
  - cbn [List.map] in Hgood. injection Hgood as Hitem Hgood.
    cbn [app flatten_loop]. rewrite Hitem. cbn [bind]. now apply (IH rows).
Qed.

(** X12.  Whenever the load returns a table, the table has one row for
    each item the loop ran through, and the rows are the rows of these items,
    in their order: no row comes from anywhere else. *)
Theorem load_rows_exact (py : builtins)
        (uploaded_file default_file : option file) (df : list dict)
        (Hload : load_json_data py uploaded_file default_file = inr df) :
  exists (data : json) (items : list json),
    read_data uploaded_file default_file = inr data
    /\ iterate data = inr items
    /\ List.map (flatten py) items = List.map inr df
    /\ List.length df = List.length items.
Proof.
  unfold load_json_data in Hload.
  destruct (read_data uploaded_file default_file) as [e|data] eqn:Hread;
    [discriminate|].
  cbn [bind] in Hload.
  destruct (iterate data) as [e|items] eqn:Hiter; [discriminate|].
  cbn [bind] in Hload.
  destruct (flatten_loop_inv _ _ _ _ Hload) as (rows & -> & Hrows).
  exists data, items. change ([] ++ rows) with rows.
  split; [reflexivity|]. split; [exact Hiter|]. split; [exact Hrows|].
  rewrite <- (length_map (@inr error dict) rows), <- Hrows. apply length_map.
Qed.

(** X13.  The load raises what the first record that cannot be flattened
    raises; the records after it are not looked at, and the rows built before
    it are lost. *)
Theorem load_first_error (py : builtins)
        (uploaded_file default_file : option file)
        (good rest : list json) (bad : json) (rows : list dict) (e : error)
        (Hread : read_data uploaded_file default_file
                 = inr (JArr (good ++ bad :: rest)))
        (Hgood : List.map (flatten py) good = List.map inr rows)
        (Hbad : flatten py bad = inl e) :
  load_json_data py uploaded_file default_file = inl e
  /\ page_after_load py uploaded_file default_file = ErrorBanner e.
Proof.
  assert (H : load_json_data py uploaded_file default_file = inl e).
  { unfold load_json_data. rewrite Hread. cbn [bind iterate ret].
    apply (flatten_loop_first_error _ _ _ _ rows [] e Hgood Hbad). }
  split; [exact H|]. unfold page_after_load. now rewrite H.
Qed.

(** A file that is not JSON makes the load raise the decoding error, shown
    in the error banner; an uploaded file decides the load alone: the default
    file is not read, not even when the upload is not JSON. *)
Lemma malformed_file_fails (py : builtins)
        (uploaded_file default_file : option file) :
  load_json_data py (Some NotJson) default_file = inl JSONDecodeError
  /\ page_after_load py (Some NotJson) default_file
     = ErrorBanner JSONDecodeError
  /\ load_json_data py None (Some NotJson) = inl JSONDecodeError
  /\ (forall f : file,
         load_json_data py (Some f) default_file
         = load_json_data py (Some f) None).
Proof. repeat split. Qed.

(** A string that is not empty has a first character. *)
(** The characters of a string are its code points: the two bytes of
    U+00E9 stay together, so that [", ".join] of the string "q\u00e9a" is
    "q, \u00e9, a". *)
Example chars_code_points :
  let e_acute := String (ascii_of_nat 195) (String (ascii_of_nat 169) EmptyString) in
  Str.chars (String "q" (e_acute ++ "a"))%string = ["q"%string; e_acute; "a"%string]
  /\ join ", " (JStr (String "q" (e_acute ++ "a")))
     = inr ("q, " ++ e_acute ++ ", a")%string.
Proof. split; reflexivity. Qed.

Lemma chars_cons (c : ascii) (s : string) :
  exists (first : string) (others : list string),
    Str.chars (String c s) = first :: others.
Proof.
  cbn [Str.chars]. destruct s as [|d s]; [now eexists _, _|].
  destruct (Str.is_continuation d); [|now eexists _, _].
  destruct (Str.chars (String d s)); now eexists _, _.
Qed.

(** X15.  What is loaded depends on the top-level JSON value as follows: a
    list is run through record by record; an empty object and an empty
    string give the table with no row; an object with a key, a string with a
    character, a number, a boolean and null raise [TypeError]. *)
Theorem load_by_top_level (py : builtins)
        (uploaded_file default_file : option file) (data : json)
        (Hread : read_data uploaded_file default_file = inr data) :
  load_json_data py uploaded_file default_file
  = match data with
    | JArr items => flatten_loop py [] items
    | JObj [] => inr []
    | JStr EmptyString => inr []
    | _ => inl TypeError
    end.
Proof.
  unfold load_json_data. rewrite Hread. cbn [bind].
  destruct data as [ | | | | [|c s] | | [|[k v] d] ]; try reflexivity.
  cbn [iterate bind ret]. destruct (chars_cons c s) as (first & others & ->).
  reflexivity.
Qed.

(** X16.  For a top-level list, the page shows the no-data warning only
    when the list is empty, the error banner only when it is not, and the
    views only over a table with as many rows as the list has records, at
    least one. *)
Theorem page_cases (py : builtins)
        (uploaded_file default_file : option file) (data : list json)
        (Hread : read_data uploaded_file default_file = inr (JArr data)) :
  match page_after_load py uploaded_file default_file with
  | NoDataWarning => List.length data = 0
  | ErrorBanner _ => 0 < List.length data
  | Views df => List.length df = List.length data /\ 0 < List.length df
  end.
Proof.
  unfold page_after_load, load_json_data. rewrite Hread. cbn [bind iterate ret].
  destruct (flatten_loop py [] data) as [e|df] eqn:E.
  - destruct data; [discriminate | cbn; lia].
  - destruct (flatten_loop_inv _ _ _ _ E) as (rows & -> & Hrows).
    cbn [app].
    assert (Hlen : List.length rows = List.length data).
    { rewrite <- (length_map (@inr error dict) rows), <- Hrows.
      apply length_map. }
    destruct rows; [now rewrite <- Hlen | split; [exact Hlen | cbn; lia]].
Qed.

(** X17.  The nested normalizer, the one the loader applies to the values
    of the parsed JSON, never returns a boolean: what it returns is "Pass",
    "Fail" or its argument, and a boolean argument is never returned as it
    is. *)
Theorem normalizer_range (value : json) :
  (Inner.convert_bool_to_pass_fail value = JStr "Pass"
   \/ Inner.convert_bool_to_pass_fail value = JStr "Fail"
   \/ Inner.convert_bool_to_pass_fail value = value)
  /\ is_bool (Inner.convert_bool_to_pass_fail value) = false.
Proof.
  destruct value as [ | [] | | | s | | ]; cbn; auto.
  destruct (String.eqb (Str.lower s) "true" || String.eqb (Str.lower s) "pass");
    [auto|].
  destruct (String.eqb (Str.lower s) "false" || String.eqb (Str.lower s) "fail");
    auto.
Qed.

(** ** The columns shown *)

Lemma mem_filter (f : string -> bool) (c : string) (xs : list string) :
  mem c (filter f xs) = mem c xs && f c.
Proof.
  unfold mem. induction xs as [|x xs IH]; [reflexivity|].
  cbn [filter existsb].
  destruct (String.eqb c x) eqn:E.
  - apply String.eqb_eq in E; subst x.
    destruct (f c) eqn:Ef; cbn [existsb orb andb].
    + now rewrite String.eqb_refl.
    + rewrite IH. now rewrite !andb_false_r.
  - destruct (f x); cbn [existsb orb]; [rewrite E|]; exact IH.
Qed.

Lemma mem_app (c : string) (xs ys : list string) :
  mem c (xs ++ ys) = mem c xs || mem c ys.
Proof. apply existsb_app. Qed.

Lemma length_append (a b : string) :
  String.length (a ++ b)%string = (String.length a + String.length b)%nat.
Proof. induction a as [|x a IH]; cbn; [reflexivity | now rewrite IH]. Qed.

Lemma prefix_append (w b : string) : String.prefix w (w ++ b)%string = true.
Proof.
  induction w as [|a w IH]; cbn [append String.prefix]; [now destruct b|].
  now destruct (ascii_dec a a).
Qed.

Lemma contains_append (w a b : string) :
  contains w (a ++ w ++ b)%string = true.
Proof.
  induction a as [|x a IH].
  - cbn [append]. destruct (w ++ b)%string eqn:E; cbn [contains];
      rewrite <- E, prefix_append; reflexivity.
  - cbn [append contains]. rewrite IH. apply orb_true_r.
Qed.

Lemma display_columns_mem (columns : list string) (c : string) :
  mem c (display_columns columns)
  = mem c columns
    && (String.eqb c "jid" || String.eqb c "aid"
        || (String.prefix "eval_" c
            && negb (contains "reason" c)
            && negb (contains "which_one_executed" c))).
Proof.
  unfold display_columns, eval_cols_to_keep.
  rewrite !mem_filter, mem_app, mem_filter.
  cbn [mem existsb]. rewrite !orb_false_r.
  destruct (String.eqb c "jid") eqn:Ej;
    [apply String.eqb_eq in Ej; subst c; now destruct (mem "jid" columns)|].
  destruct (String.eqb c "aid") eqn:Ea;
    [apply String.eqb_eq in Ea; subst c; now destruct (mem "aid" columns)|].
  cbn [orb].
  destruct (String.prefix "eval_" c) eqn:Ep;
    [|cbn [andb]; now rewrite !andb_false_r].
  destruct (String.eqb c "aligned") eqn:E1;
    [apply String.eqb_eq in E1; subst c; discriminate|].
  destruct (String.eqb c "gold_aligned") eqn:E2;
    [apply String.eqb_eq in E2; subst c; discriminate|].
  cbn [orb negb andb]. rewrite andb_true_r.
  destruct (mem c columns), (contains "reason" c),
           (contains "which_one_executed" c); reflexivity.
Qed.

(** X18.  The overview table shows a column of the frame exactly when it is
    [jid], [aid], or an [eval_] column whose name contains neither "reason"
    nor "which_one_executed".  So [aligned] and [gold_aligned] are never
    shown, nor is any column with "reason" or "which_one_executed" anywhere
    in its name: the [_reason] and [_which_one_executed] columns of every
    kind, and every column of a kind such as "reasoning". *)
Theorem overview_columns (columns : list string) (c before after : string) :
  mem c (display_columns columns)
  = mem c columns
    && (String.eqb c "jid" || String.eqb c "aid"
        || (String.prefix "eval_" c
            && negb (contains "reason" c)
            && negb (contains "which_one_executed" c)))
  /\ mem "aligned" (display_columns columns) = false
  /\ mem "gold_aligned" (display_columns columns) = false
  /\ mem (before ++ "reason" ++ after)%string (display_columns columns) = false
  /\ mem (before ++ "which_one_executed" ++ after)%string
         (display_columns columns) = false.
Proof.
  split; [apply display_columns_mem|].
  split; [rewrite display_columns_mem; apply andb_false_r|].
  split; [rewrite display_columns_mem; apply andb_false_r|].
  assert (Hshort : forall w x y : string,
             (6 <= String.length w)%nat ->
             String.eqb (x ++ w ++ y)%string "jid" = false
             /\ String.eqb (x ++ w ++ y)%string "aid" = false).
  { intros w x y Hw.
    assert (Hlen : (6 <= String.length (x ++ w ++ y)%string)%nat).
    { rewrite !length_append. lia. }
    split; apply String.eqb_neq; intro E; rewrite E in Hlen; cbn in Hlen; lia. }
  split; rewrite display_columns_mem, contains_append.
  - destruct (Hshort "reason" before after) as [-> ->]; [cbn; lia|].
    cbn [negb orb]. now rewrite andb_false_r, andb_false_r.
  - destruct (Hshort "which_one_executed" before after) as [-> ->]; [cbn; lia|].
    cbn [negb orb]. now rewrite !andb_false_r.
Qed.

(** X19.  The detail view lists the [eval_] columns without
    "which_one_executed" in their name; the [eval_] columns of the overview
    table are these without the ones that have "reason" in their name, in
    the same order. *)
Theorem detail_columns (index : list string) (c : string) :
  mem c (eval_cols index)
  = mem c index
    && (String.prefix "eval_" c && negb (contains "which_one_executed" c))
  /\ eval_cols_to_keep index
     = filter (fun col => negb (contains "reason" col)) (eval_cols index).
Proof.
  split; [apply mem_filter|].
  unfold eval_cols_to_keep, eval_cols.
  induction index as [|x index IH]; [reflexivity|].
  cbn [filter]. rewrite IH.
  assert (E : String.prefix "eval_" x
              && negb (existsb (fun exclude_word => contains exclude_word x)
                               ["reason"; "which_one_executed"])
              = String.prefix "eval_" x
                && negb (contains "which_one_executed" x)
                && negb (contains "reason" x)).
  { cbn [existsb]. rewrite orb_false_r.
    now destruct (String.prefix "eval_" x), (contains "reason" x),
                 (contains "which_one_executed" x). }
  rewrite E.
  destruct (String.prefix "eval_" x && negb (contains "which_one_executed" x));
    cbn [andb filter]; [|reflexivity].
  now destruct (negb (contains "reason" x)).
Qed.

(** ** Further edge cases of a record *)

Lemma digits_upper (d : Decimal.uint) :
  Str.is_ascii (NilEmpty.string_of_uint d) = true
  /\ Str.map Str.upper_char (NilEmpty.string_of_uint d)
     = NilEmpty.string_of_uint d.
Proof.
  induction d as [|d [Ha Hm]|d [Ha Hm]|d [Ha Hm]|d [Ha Hm]|d [Ha Hm]|d [Ha Hm]
                  |d [Ha Hm]|d [Ha Hm]|d [Ha Hm]|d [Ha Hm]];
    cbn [NilEmpty.string_of_uint Str.map Str.is_ascii];
    rewrite ?Ha, ?Hm; split; reflexivity.
Qed.

Lemma upper_decimal (upper_other : string -> string) (n : Z) :
  Str.upper upper_other (NilZero.string_of_int (Z.to_int n))
  = NilZero.string_of_int (Z.to_int n).
Proof.
  assert (H : forall d : Decimal.uint,
             Str.is_ascii (NilZero.string_of_uint d) = true
             /\ Str.map Str.upper_char (NilZero.string_of_uint d)
                = NilZero.string_of_uint d).
  { intro d. unfold NilZero.string_of_uint.
    destruct d; try apply digits_upper. split; reflexivity. }
  unfold Str.upper, NilZero.string_of_int.
  destruct (Z.to_int n) as [d|d]; destruct (H d) as [Ha Hm].
  - now rewrite Ha.
  - cbn [Str.is_ascii Str.map]. rewrite Ha, Hm. reflexivity.
Qed.

(** X20.  A [jid] that is not a string does not make the record fail: null
    gives the column "NONE", a boolean "TRUE" or "FALSE", an integer its
    decimal digits. *)
Theorem jid_not_a_string (py : builtins)
        (item : json) (row : dict) (jid : json)
        (Hrow : flatten py item = inr row)
        (Hjid : path_get item ["input_data"; "jid"] = Some jid)
        (Hplain : is_plain jid = true) :
  dict_get row "jid" = Some (JStr (plain_jid_text jid)).
Proof.
  destruct (flatten_row _ _ _ Hrow) as (base & eval_results & jid' & Hj & Hb & ->).
  rewrite Hjid in Hj. injection Hj as <-.
  rewrite shape_all_keeps, Hb by reflexivity.
  destruct jid as [ | [] | n | | | | ]; try discriminate; try reflexivity.
  cbn [str plain_jid_text]. now rewrite upper_decimal.
Qed.

(** X21.  Keys the loader does not read make no difference: a record
    with one more (or one changed) top-level key other than [metadata],
    [input_data], [source_file] and [evaluation_results], or one more key in
    [input_data] other than the six read there, flattens to the same row or
    raises the same exception. *)
Theorem unread_keys_ignored (py : builtins)
        (d input_data : dict) (k k' : string) (v : json)
        (Hk : mem k ["metadata"; "input_data"; "source_file"; "evaluation_results"]
              = false)
        (Hinput : dict_get d "input_data" = Some (JObj input_data))
        (Hk' : mem k' ["jid"; "aid"; "aligned"; "gold_aligned"; "title"; "rationale"]
               = false) :
  flatten py (JObj (dict_set d k v)) = flatten py (JObj d)
  /\ flatten py
       (JObj (dict_set d "input_data" (JObj (dict_set input_data k' v))))
     = flatten py (JObj d).
Proof.
  cbn [mem existsb] in Hk, Hk'.
  repeat match goal with
         | H : _ || _ = false |- _ => apply orb_false_iff in H; destruct H
         end.
  repeat match goal with
         | H : String.eqb _ _ = false |- _ =>
             rewrite String.eqb_sym in H; revert H
         end.
  intros. unfold flatten, getitem, get_default. split.
  - rewrite !dict_get_set.
    repeat match goal with H : String.eqb _ _ = false |- _ => rewrite H; clear H end.
    reflexivity.
  - rewrite !dict_get_set. cbn [String.eqb Ascii.eqb Bool.eqb].
    rewrite Hinput. cbn [bind ret].
    rewrite !dict_get_set.
    repeat match goal with H : String.eqb _ _ = false |- _ => rewrite H; clear H end.
    reflexivity.
Qed.

(** X22.  Loading the concatenation of two lists of records gives the rows
    of the first followed by the rows of the second, when each list loads on
    its own. *)
Theorem load_concatenation (py : builtins)
        (default_file : option file) (a b : list json) (rows_a rows_b : list dict)
        (Ha : load_json_data py (Some (Json (JArr a))) default_file
              = inr rows_a)
        (Hb : load_json_data py (Some (Json (JArr b))) default_file
              = inr rows_b) :
  load_json_data py (Some (Json (JArr (a ++ b)))) default_file
  = inr (rows_a ++ rows_b).
Proof.
  unfold load_json_data in *. cbn [read_data json_load bind ret iterate] in *.
  destruct (flatten_loop_inv _ _ _ _ Ha) as (ra & -> & Hra).
  destruct (flatten_loop_inv _ _ _ _ Hb) as (rb & -> & Hrb).
  apply (flatten_loop_rows py (a ++ b) [] (ra ++ rb)).
  now rewrite !map_app, Hra, Hrb.
Qed.

(** ** Instances of the further properties *)

Example flatten_sample_record_odd :
  flatten plain sample_record_odd = inr sample_row_odd.
Proof. reflexivity. Qed.

Lemma base_fields_pass_through_witness :
  flatten plain sample_record = inr sample_row
  /\ dict_get sample_row "aligned" = Some (JBool true).
Proof.
  split; [reflexivity|].
  exact (proj1 (proj2 (proj2
           (base_fields_pass_through plain sample_record sample_row eq_refl)))).
Defined.

Lemma rationale_default_witness :
  flatten plain sample_record = inr sample_row
  /\ dict_get sample_row "rationale" = Some (JStr "N/A").
Proof.
  split; [reflexivity|].
  exact (rationale_default plain sample_record sample_row eq_refl).
Defined.

Lemma evaluations_run_joined_witness :
  flatten plain sample_record = inr sample_row
  /\ path_get sample_record ["metadata"; "evaluations_run"]
     = Some (JArr (List.map JStr ["groundedness"; "custom_check"]))
  /\ dict_get sample_row "evaluations_run"
     = Some (JStr "groundedness, custom_check").
Proof.
  split; [reflexivity|]. split; [reflexivity|].
  exact (evaluations_run_joined plain sample_record sample_row
           ["groundedness"; "custom_check"] eq_refl eq_refl).
Defined.

Lemma evaluations_run_string_spread_witness :
  path_get sample_record_odd ["metadata"; "evaluations_run"] = Some (JStr "qa")
  /\ forallb (present sample_record_odd) required_keys = true
  /\ is_mapping (field sample_record_odd ["evaluation_results"]) = true
  /\ exists row : dict,
       flatten plain sample_record_odd = inr row
       /\ dict_get row "evaluations_run" = Some (JStr "q, a").
Proof.
  do 3 (split; [reflexivity|]).
  exact (proj2 (evaluations_run_string_spread plain sample_record_odd "qa"
                  eq_refl eq_refl eq_refl)).
Defined.

Lemma row_layout_witness :
  flatten plain sample_record = inr sample_row
  /\ path_get sample_record ["evaluation_results"] = Some (JObj sample_results)
  /\ skipn 9 sample_row = shape_all [] sample_results.
Proof.
  split; [reflexivity|]. split; [reflexivity|].
  exact (proj1 (proj2
           (row_layout plain sample_record sample_row sample_results
                       eq_refl eq_refl))).
Defined.

Lemma scalar_results_row_witness :
  flatten plain sample_record_odd = inr sample_row_odd
  /\ path_get sample_record_odd ["evaluation_results"]
     = Some (JObj sample_results_odd)
  /\ NoDup (keys sample_results_odd)
  /\ forallb (fun kv => String.eqb (fst kv) "decision_accuracy"
                        || negb (is_mapping (snd kv)))
             sample_results_odd = true
  /\ skipn 9 sample_row_odd
     = [ ("eval_decision_accuracy", JStr "Pass");
         ("eval_length_ok", JStr "Fail");
         ("eval_note", JStr "n/a") ].
Proof.
  assert (Hkeys : NoDup (keys sample_results_odd)).
  { repeat constructor; cbn; intuition discriminate. }
  split; [reflexivity|]. split; [reflexivity|]. split; [exact Hkeys|].
  split; [reflexivity|].
  exact (scalar_results_row plain sample_record_odd sample_row_odd
           sample_results_odd eq_refl eq_refl Hkeys eq_refl).
Defined.

Lemma other_mapping_no_own_column_witness :
  "custom_check" <> "decision_accuracy"
  /\ dict_get sample_custom "grounded" = None
  /\ dict_get sample_custom "Eval_Status" = None
  /\ dict_get sample_custom "negation_pass" = None
  /\ dict_get (shape [] "custom_check" (JObj sample_custom)) "eval_custom_check"
     = None.
Proof.
  assert (Hkind : "custom_check" <> "decision_accuracy") by discriminate.
  split; [exact Hkind|]. do 3 (split; [reflexivity|]).
  exact (proj1 (other_mapping_no_own_column [] sample_custom "custom_check"
                  Hkind eq_refl eq_refl eq_refl)).
Defined.

Lemma flatten_raises_only_witness :
  flatten plain sample_record_no_jid = inl (KeyError "jid")
  /\ In (KeyError "jid") flatten_errors.
Proof.
  split; [reflexivity|].
  exact (flatten_raises_only plain sample_record_no_jid (KeyError "jid") eq_refl).
Defined.

Lemma load_rows_exact_witness :
  load_json_data plain (Some (Json (JArr [sample_record; sample_record_odd]))) None
  = inr [sample_row; sample_row_odd]
  /\ exists (data : json) (items : list json),
       read_data (Some (Json (JArr [sample_record; sample_record_odd]))) None
       = inr data
       /\ iterate data = inr items
       /\ List.map (flatten plain) items
          = List.map inr [sample_row; sample_row_odd]
       /\ List.length [sample_row; sample_row_odd] = List.length items.
Proof.
  split; [reflexivity|].
  exact (load_rows_exact plain
           (Some (Json (JArr [sample_record; sample_record_odd]))) None
           [sample_row; sample_row_odd] eq_refl).
Defined.

Lemma load_first_error_witness :
  read_data None
    (Some (Json (JArr ([sample_record] ++ sample_record_no_jid :: [sample_record]))))
  = inr (JArr ([sample_record] ++ sample_record_no_jid :: [sample_record]))
  /\ List.map (flatten plain) [sample_record] = List.map inr [sample_row]
  /\ flatten plain sample_record_no_jid = inl (KeyError "jid")
  /\ load_json_data plain None
       (Some (Json (JArr ([sample_record] ++ sample_record_no_jid
                                          :: [sample_record]))))
     = inl (KeyError "jid").
Proof.
  do 3 (split; [reflexivity|]).
  exact (proj1 (load_first_error plain None
                  (Some (Json (JArr ([sample_record] ++ sample_record_no_jid
                                                     :: [sample_record]))))
                  [sample_record] [sample_record] sample_record_no_jid
                  [sample_row] (KeyError "jid") eq_refl eq_refl eq_refl)).
Defined.

Lemma load_by_top_level_witness :
  read_data (Some (Json (JObj [("metadata", JObj [])]))) None
  = inr (JObj [("metadata", JObj [])])
  /\ load_json_data plain (Some (Json (JObj [("metadata", JObj [])]))) None
     = inl TypeError.
Proof.
  split; [reflexivity|].
  exact (load_by_top_level plain (Some (Json (JObj [("metadata", JObj [])])))
                           None (JObj [("metadata", JObj [])]) eq_refl).
Defined.

Lemma page_cases_witness :
  read_data (Some (Json (JArr [sample_record]))) None = inr (JArr [sample_record])
  /\ match page_after_load plain (Some (Json (JArr [sample_record]))) None with
     | NoDataWarning => List.length [sample_record] = 0
     | ErrorBanner _ => 0 < List.length [sample_record]
     | Views df => List.length df = List.length [sample_record]
                   /\ 0 < List.length df
     end.
Proof.
  split; [reflexivity|].
  exact (page_cases plain (Some (Json (JArr [sample_record]))) None
                    [sample_record] eq_refl).
Defined.

Lemma jid_not_a_string_witness :
  flatten plain sample_record_odd = inr sample_row_odd
  /\ path_get sample_record_odd ["input_data"; "jid"] = Some JNull
  /\ is_plain JNull = true
  /\ dict_get sample_row_odd "jid" = Some (JStr "NONE").
Proof.
  do 3 (split; [reflexivity|]).
  exact (jid_not_a_string plain sample_record_odd sample_row_odd JNull
                          eq_refl eq_refl eq_refl).
Defined.

Lemma unread_keys_ignored_witness :
  mem "reviewer"
      ["metadata"; "input_data"; "source_file"; "evaluation_results"] = false
  /\ dict_get [("input_data", JObj [("jid", JStr "j1")])] "input_data"
     = Some (JObj [("jid", JStr "j1")])
  /\ mem "abstract" ["jid"; "aid"; "aligned"; "gold_aligned"; "title"; "rationale"]
     = false
  /\ flatten plain
       (JObj (dict_set [("input_data", JObj [("jid", JStr "j1")])]
                       "reviewer" (JStr "someone")))
     = flatten plain (JObj [("input_data", JObj [("jid", JStr "j1")])]).
Proof.
  do 3 (split; [reflexivity|]).
  exact (proj1 (unread_keys_ignored plain
                  [("input_data", JObj [("jid", JStr "j1")])]
                  [("jid", JStr "j1")] "reviewer" "abstract" (JStr "someone")
                  eq_refl eq_refl eq_refl)).
Defined.

Lemma load_concatenation_witness :
  load_json_data plain (Some (Json (JArr [sample_record]))) None
  = inr [sample_row]
  /\ load_json_data plain (Some (Json (JArr [sample_record_odd]))) None
     = inr [sample_row_odd]
  /\ load_json_data plain
       (Some (Json (JArr ([sample_record] ++ [sample_record_odd])))) None
     = inr ([sample_row] ++ [sample_row_odd]).
Proof.
  do 2 (split; [reflexivity|]).
  exact (load_concatenation plain None [sample_record] [sample_record_odd]
                            [sample_row] [sample_row_odd] eq_refl eq_refl).
Defined.

(** ** Booleans among the evaluation columns *)

Lemma contains_further (w a s : string) :
  contains w s = true -> contains w (a ++ s)%string = true.
Proof.
  intro H. induction a as [|x a IH]; [exact H|].
  cbn [append contains]. rewrite IH. apply orb_true_r.
Qed.

Lemma reason_column_left_out (eval_type : string) :
  left_out ("eval_" ++ eval_type ++ "_reason") = true.
Proof.
  unfold left_out. cbn [existsb].
  rewrite (contains_further "reason" "eval_"); [reflexivity|].
  now apply contains_further.
Qed.

Lemma which_column_left_out (eval_type : string) :
  left_out ("eval_" ++ eval_type ++ "_which_one_executed") = true.
Proof.
  unfold left_out. cbn [existsb].
  rewrite (contains_further "which_one_executed" "eval_");
    [apply orb_true_r|].
  now apply contains_further.
Qed.

Lemma normalized_not_bool (value : json) :
  is_bool (Inner.convert_bool_to_pass_fail value) = false.
Proof.
  destruct value as [ | [] | | | s | | ]; try reflexivity.
  cbn [Inner.convert_bool_to_pass_fail]. cbv zeta.
  destruct (String.eqb (Str.lower s) "true" || String.eqb (Str.lower s) "pass");
    [reflexivity|].
  now destruct (String.eqb (Str.lower s) "false" || String.eqb (Str.lower s) "fail").
Qed.

Lemma booleans_left_out_set (d : dict) (c : string) (v : json) :
  booleans_left_out d ->
  is_bool v = false \/ left_out c = true ->
  booleans_left_out (dict_set d c v).
Proof.
  intros Hd Hv c' b Hp. rewrite dict_get_set.
  destruct (String.eqb c' c) eqn:E; [|now apply Hd].
  apply String.eqb_eq in E; subst c'. intro H. injection H as ->.
  destruct Hv as [Hv|Hv]; [discriminate | exact Hv].
Qed.

Lemma booleans_left_out_shape (d : dict) (eval_type : string) (result : json) :
  booleans_left_out d -> booleans_left_out (shape d eval_type result).
Proof.
  intro H. unfold shape.
  assert (Hn : forall (d' : dict) (c : string) (v : json),
             booleans_left_out d' ->
             booleans_left_out (dict_set d' c (Inner.convert_bool_to_pass_fail v))).
  { intros. apply booleans_left_out_set; [assumption|].
    left. apply normalized_not_bool. }
  assert (Hr : forall (d' : dict) (v : json),
             booleans_left_out d' ->
             booleans_left_out (dict_set d' ("eval_" ++ eval_type ++ "_reason") v)).
  { intros. apply booleans_left_out_set; [assumption|].
    right. apply reason_column_left_out. }
  assert (Hw : forall (d' : dict) (v : json),
             booleans_left_out d' ->
             booleans_left_out
               (dict_set d' ("eval_" ++ eval_type ++ "_which_one_executed") v)).
  { intros. apply booleans_left_out_set; [assumption|].
    right. apply which_column_left_out. }
  destruct (String.eqb eval_type "decision_accuracy"); [now apply Hn|].
  destruct result; try (now apply Hn).
  repeat match goal with
         | |- context [match dict_get ?d ?k with _ => _ end] =>
             destruct (dict_get d k)
         end;
    repeat first [apply Hr | apply Hw | apply Hn]; try exact H.
  revert d H. induction members as [|kv members IH]; intros d H; [exact H|].
  cbn [fold_left]. apply IH. now apply Hn.
Qed.

Lemma booleans_left_out_shape_all (eval_results d : dict) :
  booleans_left_out d -> booleans_left_out (shape_all d eval_results).
Proof.
  unfold shape_all. revert d.
  induction eval_results as [|kv eval_results IH]; intros d H; [exact H|].
  cbn [fold_left]. apply IH. now apply booleans_left_out_shape.
Qed.

Lemma prefix_eval_inv (c : string) :
  String.prefix "eval_" c = true -> exists rest : string, c = ("eval_" ++ rest)%string.
Proof.
  destruct c as [|c1 [|c2 [|c3 [|c4 [|c5 rest]]]]]; cbn [String.prefix];
    repeat match goal with
           | |- context [ascii_dec ?a ?b] => destruct (ascii_dec a b); try subst
           end;
    try discriminate.
  intros _. now exists rest.
Qed.

Lemma flatten_booleans_left_out (py : builtins)
      (item : json) (row : dict) :
  flatten py item = inr row -> booleans_left_out row.
Proof.
  intro Hrow.
  destruct (flatten_inv _ _ _ Hrow) as (joined & eval_results & _ & _ & ->).
  apply booleans_left_out_shape_all.
  intros c b Hp Hc. destruct (prefix_eval_inv c Hp) as [rest ->].
  rewrite base_record_no_eval_column in Hc. discriminate.
Qed.

(** X23.  An evaluation column of a row holds a JSON boolean only if its
    name has "reason" or "which_one_executed" in it: the status columns
    [eval_<kind>] and [eval_<kind>_<subkey>] the normalizer has filled are
    never booleans, whatever the record. *)
Theorem eval_booleans_only_raw (py : builtins)
        (item : json) (row : dict) (c : string) (b : bool)
        (Hrow : flatten py item = inr row)
        (Hcolumn : String.prefix "eval_" c = true)
        (Hbool : dict_get row c = Some (JBool b)) :
  contains "reason" c || contains "which_one_executed" c = true.
Proof.
  pose proof (flatten_booleans_left_out _ _ _ Hrow c b Hcolumn Hbool) as H.
  unfold left_out in H. cbn [existsb] in H. now rewrite orb_false_r in H.
Qed.

(** X24.  Over the frame of a load (with at least one row), a column of the
    pass-rate chart has "reason" or "which_one_executed" in its name, so no
    column is both in the chart and in the overview table. *)
Theorem chart_columns_left_out (py : builtins)
        (columns : list string) (items : list json)
        (row : dict) (rest : list dict) (c : string)
        (Hrows : List.map (flatten py) items = List.map inr (row :: rest)) :
  mem c (eval_columns columns (row :: rest))
  && negb (contains "reason" c || contains "which_one_executed" c) = false
  /\ mem c (eval_columns columns (row :: rest)) && mem c (display_columns columns)
     = false.
Proof.
  destruct items as [|item items]; [discriminate|].
  cbn [List.map] in Hrows. injection Hrows as Hrow _.
  unfold eval_columns. rewrite mem_filter, display_columns_mem.
  cbn [bool_dtype forallb].
  destruct (String.prefix "eval_" c) eqn:Hp;
    [|split; now rewrite !andb_false_r].
  destruct (dict_get row c) as [[ |b| | | | | ]|] eqn:Hc;
    try (split; now rewrite !andb_false_r).
  pose proof (flatten_booleans_left_out _ _ _ Hrow c b Hp Hc) as H.
  unfold left_out in H. cbn [existsb] in H. rewrite orb_false_r in H.
  split; [rewrite H; now rewrite andb_false_r|].
  assert (Hj : String.eqb c "jid" = false).
  { apply String.eqb_neq. intros ->. discriminate. }
  assert (Ha : String.eqb c "aid" = false).
  { apply String.eqb_neq. intros ->. discriminate. }
  rewrite Hj, Ha. cbn [orb].
  apply orb_true_iff in H as [H|H]; rewrite H; cbn [negb andb];
    now rewrite ?andb_false_r.
Qed.

(** X25.  [upper()] never yields one of the letters a-z, of an ASCII
    string by computation and of any other string by the Unicode tables
    (the hypothesis on [upper_other]); so the [jid] column of a row is a
    string with none of these letters, and never the string "All", the
    option of the journal filter that stands for no filter. *)
Theorem jid_never_all (py : builtins) (item : json) (row : dict)
        (Hrow : flatten py item = inr row)
        (Hupper : forall s : string, Str.no_a_to_z (upper_other py s) = true) :
  exists jid : string,
    dict_get row "jid" = Some (JStr jid)
    /\ Str.no_a_to_z jid = true
    /\ String.eqb jid "All" = false.
Proof.
  destruct (flatten_row _ _ _ Hrow) as (base & eval_results & jid & _ & Hb & ->).
  exists (Str.upper (upper_other py) (str py jid)).
  assert (H : Str.no_a_to_z (Str.upper (upper_other py) (str py jid)) = true).
  { unfold Str.upper. destruct (Str.is_ascii (str py jid));
      [apply no_a_to_z_map_upper | apply Hupper]. }
  split; [now rewrite shape_all_keeps|].
  split; [exact H|].
  apply String.eqb_neq. intro E. rewrite E in H. discriminate.
Qed.

(** ** The record selector and the filters *)

Lemma record_options_labels (option_label : dict -> outcome string)
      (df : list dict) (options : list string) :
  record_options option_label df = inr options ->
  List.map option_label df = List.map inr options.
Proof.
  revert options. induction df as [|row df IH]; intros options H.
  - injection H as <-. reflexivity.
  - cbn [record_options] in H.
    destruct (option_label row) as [e|label] eqn:El; [discriminate|].
    cbn [bind] in H.
    destruct (record_options option_label df) as [e|labels]; [discriminate|].
    injection H as <-. cbn [List.map]. now rewrite El, (IH labels).
Qed.

Lemma index_first_labelled (option_label : dict -> outcome string)
      (df : list dict) (options : list string) (label : string) :
  List.map option_label df = List.map inr options ->
  match index label options with
  | Some i => nth_error df i
  | None => None
  end = find (labelled option_label label) df.
Proof.
  revert options. induction df as [|row df IH]; intros [|o options] H;
    try discriminate; [reflexivity|].
  cbn [List.map] in H. injection H as Ho H.
  cbn [index find]. unfold labelled at 1. rewrite Ho.
  destruct (String.eqb o label); [reflexivity|].
  rewrite <- (IH options H). now destruct (index label options).
Qed.

(** X26.  The detail view shows the first row of the frame that has the
    label of the option picked: the row at the position picked when no
    earlier row has the same label, an earlier row otherwise. *)
Theorem selected_row_first_labelled (option_label : dict -> outcome string)
        (df : list dict) (options : list string) (choice : nat) (label : string)
        (Hoptions : record_options option_label df = inr options)
        (Hchoice : nth_error options choice = Some label) :
  selected_row option_label df choice
  = inr (find (labelled option_label label) df).
Proof.
  unfold selected_row. rewrite Hoptions. cbn [bind]. unfold ret.
  rewrite Hchoice.
  f_equal. apply index_first_labelled. now apply record_options_labels.
Qed.

Lemma equals_bool_disjoint (v : json) :
  equals_bool v true && equals_bool v false = false.
Proof.
  destruct v as [ | [] | n | m e | | | ]; try reflexivity; cbn [equals_bool].
  - destruct (Z.eqb n 1) eqn:E; [|reflexivity].
    apply Z.eqb_eq in E; now subst n.
  - destruct (Z.eqb m 0) eqn:E; [|apply andb_false_r].
    apply Z.eqb_eq in E; subst m. rewrite andb_true_r.
    destruct (Z.leb 0 e) eqn:Ee; [reflexivity|].
    apply Z.leb_gt in Ee. apply Z.eqb_neq.
    pose proof (Z.pow_pos_nonneg 2 (- e)). lia.
Qed.

Lemma filter_three_ways {A : Type} (p q : A -> bool) (xs : list A) :
  (forall x, p x && q x = false) ->
  List.length (filter p xs) + List.length (filter q xs)
  + List.length (filter (fun x => negb (p x) && negb (q x)) xs)
  = List.length xs.
Proof.
  intro H. induction xs as [|x xs IH]; [reflexivity|].
  cbn [filter]. specialize (H x).
  destruct (p x), (q x); try discriminate; cbn [negb andb List.length]; lia.
Qed.

(** X27.  Under any journal filter, the rows shown as Aligned and the rows
    shown as Not Aligned are different rows, and together they are the rows
    shown under All except those whose [aligned] equals neither [True] nor
    [False] (null, a string, a number other than 1 and 0): these are shown
    under All only. *)
Theorem alignment_views_partition (journal_filter : string) (df : list dict) :
  List.length (apply_filters journal_filter "Aligned" df)
  + List.length (apply_filters journal_filter "Not Aligned" df)
  + List.length
      (filter
         (fun row =>
            match dict_get row "aligned" with
            | Some aligned =>
                negb (equals_bool aligned true) && negb (equals_bool aligned false)
            | None => true
            end)
         (apply_filters journal_filter "All" df))
  = List.length (apply_filters journal_filter "All" df).
Proof.
  unfold apply_filters. cbn [String.eqb Ascii.eqb Bool.eqb].
  match goal with
  | |- context [if ?b then ?a else df] => generalize (if b then a else df)
  end.
  intro rows.
  etransitivity;
    [|apply (filter_three_ways
               (fun row => match dict_get row "aligned" with
                           | Some aligned => equals_bool aligned true
                           | None => false
                           end)
               (fun row => match dict_get row "aligned" with
                           | Some aligned => equals_bool aligned false
                           | None => false
                           end) rows)].
  - f_equal. f_equal. apply filter_ext. intro row.
    now destruct (dict_get row "aligned").
  - intro row. destruct (dict_get row "aligned"); [|reflexivity].
    apply equals_bool_disjoint.
Qed.

(** ** Instances, continued *)

Example flatten_sample_record_flagged :
  flatten plain sample_record_flagged = inr sample_row_flagged.
Proof. reflexivity. Qed.

Lemma eval_booleans_only_raw_witness :
  flatten plain sample_record_flagged = inr sample_row_flagged
  /\ String.prefix "eval_" "eval_groundedness_reason" = true
  /\ dict_get sample_row_flagged "eval_groundedness_reason" = Some (JBool false)
  /\ contains "reason" "eval_groundedness_reason"
     || contains "which_one_executed" "eval_groundedness_reason" = true.
Proof.
  do 3 (split; [reflexivity|]).
  exact (eval_booleans_only_raw plain sample_record_flagged sample_row_flagged
           "eval_groundedness_reason" false eq_refl eq_refl eq_refl).
Defined.

Lemma chart_columns_left_out_witness :
  List.map (flatten plain) [sample_record_flagged]
  = List.map inr [sample_row_flagged]
  /\ mem "eval_groundedness_reason"
         (eval_columns (keys sample_row_flagged) [sample_row_flagged])
     && mem "eval_groundedness_reason" (display_columns (keys sample_row_flagged))
     = false.
Proof.
  split; [reflexivity|].
  exact (proj2 (chart_columns_left_out plain (keys sample_row_flagged)
                  [sample_record_flagged] sample_row_flagged []
                  "eval_groundedness_reason" eq_refl)).
Defined.

Lemma jid_never_all_witness :
  flatten plain sample_record = inr sample_row
  /\ (forall s : string, Str.no_a_to_z (upper_other plain s) = true)
  /\ exists jid : string,
       dict_get sample_row "jid" = Some (JStr jid)
       /\ Str.no_a_to_z jid = true
       /\ String.eqb jid "All" = false.
Proof.
  split; [reflexivity|]. split; [intro s; reflexivity|].
  exact (jid_never_all plain sample_record sample_row eq_refl
                       (fun s => eq_refl)).
Defined.

Lemma selected_row_first_labelled_witness :
  record_options sample_label [sample_row; sample_row_odd; sample_row_flagged;
                               sample_row_odd]
  = inr ["ABC"; "NONE"; "XYZ"; "NONE"]
  /\ nth_error ["ABC"; "NONE"; "XYZ"; "NONE"] 3 = Some "NONE"
  /\ selected_row sample_label
       [sample_row; sample_row_odd; sample_row_flagged; sample_row_odd] 3
     = inr (nth_error [sample_row; sample_row_odd; sample_row_flagged;
                       sample_row_odd] 1).
Proof.
  do 2 (split; [reflexivity|]).
  exact (selected_row_first_labelled sample_label
           [sample_row; sample_row_odd; sample_row_flagged; sample_row_odd]
           ["ABC"; "NONE"; "XYZ"; "NONE"] 3 "NONE" eq_refl eq_refl).
Defined.

(** ** Turns that write the same column *)

Lemma fold_subkeys_over (eval_type : string) (result record : dict) (c : string) :
  dict_get
    (fold_left
       (fun record kv =>
          dict_set record ("eval_" ++ eval_type ++ "_" ++ fst kv)
                   (Inner.convert_bool_to_pass_fail (snd kv)))
       result record) c
  = match dict_get
            (fold_left
               (fun record kv =>
                  dict_set record ("eval_" ++ eval_type ++ "_" ++ fst kv)
                           (Inner.convert_bool_to_pass_fail (snd kv)))
               result []) c with
    | Some v => Some v
    | None => dict_get record c
    end.
Proof.
  revert record. induction result as [|kv result IH]; intro record; [reflexivity|].
  cbn [fold_left].
  rewrite (IH (dict_set record _ _)), (IH (dict_set [] _ _)).
  match goal with
  | |- context [dict_get (fold_left ?f result []) c] =>
      destruct (dict_get (fold_left f result []) c)
  end; [reflexivity|].
  rewrite !dict_get_set. cbn [dict_get].
  now destruct (String.eqb c ("eval_" ++ eval_type ++ "_" ++ fst kv)).
Qed.

Lemma shape_over (record : dict) (eval_type : string) (result : json) (c : string) :
  dict_get (shape record eval_type result) c
  = match dict_get (shape [] eval_type result) c with
    | Some v => Some v
    | None => dict_get record c
    end.
Proof.
  unfold shape.
  destruct (String.eqb eval_type "decision_accuracy").
  { rewrite !dict_get_set. cbn [dict_get]. now destruct (String.eqb c _). }
  destruct result;
    try (rewrite !dict_get_set; cbn [dict_get]; now destruct (String.eqb c _)).
  repeat match goal with
         | |- context [match dict_get members ?k with _ => _ end] =>
             destruct (dict_get members k)
         end;
    try apply fold_subkeys_over;
    cbv zeta; rewrite !dict_get_set; cbn [dict_get];
    repeat match goal with
           | |- context [String.eqb c ?x] => destruct (String.eqb c x)
           end;
    reflexivity.
Qed.

Lemma shape_all_over (eval_results record : dict) (c : string) :
  dict_get (shape_all record eval_results) c
  = match dict_get (shape_all [] eval_results) c with
    | Some v => Some v
    | None => dict_get record c
    end.
Proof.
  unfold shape_all. revert record.
  induction eval_results as [|kv eval_results IH]; intro record; [reflexivity|].
  cbn [fold_left].
  rewrite (IH (shape record _ _)), (IH (shape [] _ _)).
  match goal with
  | |- context [dict_get (fold_left ?f eval_results []) c] =>
      destruct (dict_get (fold_left f eval_results []) c)
  end; [reflexivity|].
  apply shape_over.
Qed.

(** X14.  The last write wins: after the loop over the evaluation results,
    a column that the later kinds write holds what they write into it,
    whatever the earlier kinds and the row so far held there; a column the
    later kinds do not write holds what it held before them. *)
Theorem later_kinds_win (record earlier later : dict) (c : string) :
  dict_get (shape_all record (earlier ++ later)) c
  = match dict_get (shape_all [] later) c with
    | Some v => Some v
    | None => dict_get (shape_all record earlier) c
    end.
Proof.
  replace (shape_all record (earlier ++ later))
    with (shape_all (shape_all record earlier) later)
    by (unfold shape_all; now rewrite fold_left_app).
  apply shape_all_over.
Qed.

(** * The rules of the loop, on the row *)

(** The row of a record, column by column, seen from one pair of its
    evaluation results: what the later kinds write, else what the turn of
    the pair writes, else what the nine base columns and the earlier kinds
    hold. *)
Lemma flatten_turn (py : builtins) (item : json) (row earlier later : dict)
      (eval_type : string) (result : json) (c : string) :
  flatten py item = inr row ->
  path_get item ["evaluation_results"]
  = Some (JObj (earlier ++ (eval_type, result) :: later)) ->
  dict_get row c
  = match dict_get (shape_all [] later) c with
    | Some v => Some v
    | None =>
        match dict_get (shape [] eval_type result) c with
        | Some v => Some v
        | None => dict_get (shape_all (firstn 9 row) earlier) c
        end
    end.
Proof.
  intros Hrow Hresults.
  destruct (flatten_inv _ _ _ Hrow) as (joined & eval_results & _ & He & ->).
  rewrite Hresults in He. injection He as <-.
  assert (Hbase : firstn 9 (shape_all (base_record py item joined)
                                      (earlier ++ (eval_type, result) :: later))
                  = base_record py item joined).
  { rewrite <- (app_nil_r (base_record py item joined)) at 1.
    rewrite shape_all_over_base by (intro; apply base_record_no_eval_column).
    reflexivity. }
  rewrite Hbase, shape_all_turn, shape_all_over, shape_over. reflexivity.
Qed.

(** The row without the pair: the base columns and what the other kinds
    write. *)
Lemma others_get (base earlier later : dict) (c : string) :
  dict_get (shape_all base (earlier ++ later)) c
  = match dict_get (shape_all [] later) c with
    | Some v => Some v
    | None => dict_get (shape_all base earlier) c
    end.
Proof.
  replace (shape_all base (earlier ++ later))
    with (shape_all (shape_all base earlier) later)
    by (unfold shape_all; now rewrite fold_left_app).
  apply shape_all_over.
Qed.

(** The row is the loop run over the base columns. *)
Lemma flatten_as_loop (py : builtins) (item : json) (row eval_results : dict) :
  flatten py item = inr row ->
  path_get item ["evaluation_results"] = Some (JObj eval_results) ->
  row = shape_all (firstn 9 row) eval_results.
Proof.
  intros Hrow Hresults.
  destruct (flatten_inv _ _ _ Hrow) as (joined & eval_results' & _ & He & ->).
  rewrite Hresults in He. injection He as <-.
  rewrite <- (app_nil_r (base_record py item joined)) at 2.
  rewrite shape_all_over_base by (intro; apply base_record_no_eval_column).
  reflexivity.
Qed.

(** C3, as amended.  In the row of a record whose evaluation results hold
    the kind [decision_accuracy], and in which no later kind writes the
    column [eval_decision_accuracy], that column is [normalize(result)],
    whatever the result is (a mapping with recognised keys included); every
    other column of the row, [eval_decision_accuracy_reason] and
    [eval_decision_accuracy_which_one_executed] among them, is what the base
    columns and the other kinds make it: the pair adds that one column and
    nothing else. *)
Theorem decision_accuracy_rule (py : builtins)
        (item : json) (row earlier later : dict) (result : json)
        (Hrow : flatten py item = inr row)
        (Hresults : path_get item ["evaluation_results"]
                    = Some (JObj (earlier ++ ("decision_accuracy", result) :: later)))
        (Hfree : dict_get (shape_all [] later) "eval_decision_accuracy" = None) :
  let others := shape_all (firstn 9 row) (earlier ++ later) in
  dict_get row "eval_decision_accuracy"
  = Some (Inner.convert_bool_to_pass_fail result)
  /\ (forall c : string,
         dict_get row c
         = if String.eqb c "eval_decision_accuracy"
           then Some (Inner.convert_bool_to_pass_fail result)
           else dict_get others c)
  /\ dict_get row "eval_decision_accuracy_reason"
     = dict_get others "eval_decision_accuracy_reason"
  /\ dict_get row "eval_decision_accuracy_which_one_executed"
     = dict_get others "eval_decision_accuracy_which_one_executed".
Proof.
  cbv zeta.
  assert (Hall : forall c : string,
             dict_get row c
             = if String.eqb c "eval_decision_accuracy"
               then Some (Inner.convert_bool_to_pass_fail result)
               else dict_get (shape_all (firstn 9 row) (earlier ++ later)) c).
  { intro c.
    rewrite (flatten_turn _ _ _ _ _ _ _ c Hrow Hresults), others_get.
    rewrite shape_decision_accuracy, dict_get_set. cbn [dict_get].
    destruct (String.eqb c "eval_decision_accuracy") eqn:E; [|reflexivity].
    apply String.eqb_eq in E; subst c. now rewrite Hfree. }
  split; [now rewrite Hall|].
  split; [exact Hall|].
  split; now rewrite Hall.
Qed.

(** C3, as stated, fails on the row: a later kind [decision] with the
    subkey [accuracy] writes the same column.  So the rule does not hold of
    every record whose evaluation results hold the kind
    [decision_accuracy]. *)
Lemma decision_accuracy_overwritten :
  flatten plain (record_with decision_collision)
  = inr (row_with [("eval_decision_accuracy", JStr "n/a")])
  /\ dict_get decision_collision "decision_accuracy" = Some (JBool true)
  /\ dict_get (row_with [("eval_decision_accuracy", JStr "n/a")])
              "eval_decision_accuracy"
     <> Some (Inner.convert_bool_to_pass_fail (JBool true))
  /\ ~ (forall (py : builtins) (item : json) (row eval_results : dict)
              (result : json),
          flatten py item = inr row ->
          path_get item ["evaluation_results"] = Some (JObj eval_results) ->
          dict_get eval_results "decision_accuracy" = Some result ->
          dict_get row "eval_decision_accuracy"
          = Some (Inner.convert_bool_to_pass_fail result)).
Proof.
  repeat split; [discriminate|].
  intro H.
  specialize (H plain (record_with decision_collision)
                (row_with [("eval_decision_accuracy", JStr "n/a")])
                decision_collision (JBool true) eq_refl eq_refl eq_refl).
  discriminate H.
Qed.

Lemma decision_accuracy_rule_witness :
  flatten plain sample_record = inr sample_row
  /\ path_get sample_record ["evaluation_results"]
     = Some (JObj ([] ++ ("decision_accuracy", JBool true)
                      :: [ ("groundedness",
                            JObj [ ("grounded", JBool false);
                                   ("reason", JStr "missing citation") ]);
                           ("custom_check",
                            JObj [ ("score", JFloat 1 (-1));
                                   ("notes", JStr "ok") ]) ]))
  /\ dict_get (shape_all []
                 [ ("groundedness",
                    JObj [ ("grounded", JBool false);
                           ("reason", JStr "missing citation") ]);
                   ("custom_check",
                    JObj [ ("score", JFloat 1 (-1)); ("notes", JStr "ok") ]) ])
              "eval_decision_accuracy" = None
  /\ dict_get sample_row "eval_decision_accuracy" = Some (JStr "Pass").
Proof.
  do 3 (split; [reflexivity|]).
  exact (proj1 (decision_accuracy_rule plain sample_record sample_row []
                  [ ("groundedness",
                     JObj [ ("grounded", JBool false);
                            ("reason", JStr "missing citation") ]);
                    ("custom_check",
                     JObj [ ("score", JFloat 1 (-1)); ("notes", JStr "ok") ]) ]
                  (JBool true) eq_refl eq_refl eq_refl)).
Defined.

(** C2, as amended.  In the row of a record, for a kind other than
    [decision_accuracy] whose result is a mapping with the key [grounded],
    and when no later kind writes the columns [eval_<kind>] and
    [eval_<kind>_reason]: the column [eval_<kind>] is
    [normalize(result["grounded"])]; the column [eval_<kind>_reason] is
    [result["reason"]] as it is when [reason] is present, and what the other
    kinds make it when it is not; every other column is what the base columns
    and the other kinds make it.  The keys of the later rules ([Eval_Status],
    [negation_pass], [which_one_executed]) change nothing: the row is the
    same whatever the mapping holds under them. *)
Theorem grounded_rule (py : builtins)
        (item : json) (row earlier later result : dict)
        (eval_type : string) (grounded : json)
        (Hrow : flatten py item = inr row)
        (Hresults : path_get item ["evaluation_results"]
                    = Some (JObj (earlier ++ (eval_type, JObj result) :: later)))
        (Hkind : eval_type <> "decision_accuracy")
        (Hgrounded : dict_get result "grounded" = Some grounded)
        (Hfree : dict_get (shape_all [] later) ("eval_" ++ eval_type) = None)
        (Hfree_reason :
           dict_get (shape_all [] later) ("eval_" ++ eval_type ++ "_reason") = None) :
  let others := shape_all (firstn 9 row) (earlier ++ later) in
  dict_get row ("eval_" ++ eval_type)
  = Some (Inner.convert_bool_to_pass_fail grounded)
  /\ dict_get row ("eval_" ++ eval_type ++ "_reason")
     = match dict_get result "reason" with
       | Some reason => Some reason
       | None => dict_get others ("eval_" ++ eval_type ++ "_reason")
       end
  /\ (forall c : string,
         dict_get row c
         = if String.eqb c ("eval_" ++ eval_type) then
             Some (Inner.convert_bool_to_pass_fail grounded)
           else if String.eqb c ("eval_" ++ eval_type ++ "_reason") then
             match dict_get result "reason" with
             | Some reason => Some reason
             | None => dict_get others c
             end
           else dict_get others c)
  /\ (forall other : json,
         shape_all (firstn 9 row)
           (earlier ++ (eval_type, JObj (dict_set result "Eval_Status" other))
                    :: later) = row
         /\ shape_all (firstn 9 row)
              (earlier ++ (eval_type, JObj (dict_set result "negation_pass" other))
                       :: later) = row
         /\ shape_all (firstn 9 row)
              (earlier
                 ++ (eval_type, JObj (dict_set result "which_one_executed" other))
                 :: later) = row).
Proof.
  cbv zeta.
  assert (Hall : forall c : string,
             dict_get row c
             = if String.eqb c ("eval_" ++ eval_type) then
                 Some (Inner.convert_bool_to_pass_fail grounded)
               else if String.eqb c ("eval_" ++ eval_type ++ "_reason") then
                 match dict_get result "reason" with
                 | Some reason => Some reason
                 | None => dict_get (shape_all (firstn 9 row) (earlier ++ later)) c
                 end
               else dict_get (shape_all (firstn 9 row) (earlier ++ later)) c).
  { intro c.
    rewrite (flatten_turn _ _ _ _ _ _ _ c Hrow Hresults), others_get.
    rewrite (shape_grounded [] result _ _ Hkind Hgrounded).
    destruct (String.eqb c ("eval_" ++ eval_type)) eqn:Ec.
    - apply String.eqb_eq in Ec; subst c. rewrite Hfree.
      destruct (dict_get result "reason"); rewrite !dict_get_set;
        now rewrite ?reason_column_fresh, String.eqb_refl.
    - destruct (String.eqb c ("eval_" ++ eval_type ++ "_reason")) eqn:Er.
      + apply String.eqb_eq in Er; subst c. rewrite Hfree_reason.
        destruct (dict_get result "reason"); rewrite !dict_get_set;
          rewrite ?String.eqb_refl, ?Ec; reflexivity.
      + destruct (dict_get result "reason"); rewrite !dict_get_set;
          rewrite ?Ec, ?Er; reflexivity. }
  split; [now rewrite Hall, String.eqb_refl|].
  split; [now rewrite Hall, String.eqb_sym, reason_column_fresh, String.eqb_refl|].
  split; [exact Hall|].
  intro other.
  rewrite (flatten_as_loop _ _ _ _ Hrow Hresults) at 2 4 6.
  rewrite !shape_all_turn.
  rewrite (shape_grounded _ result _ _ Hkind Hgrounded).
  repeat split;
    (erewrite shape_grounded;
     [ rewrite dict_get_set; reflexivity
     | assumption
     | rewrite dict_get_set; exact Hgrounded ]).
Qed.

(** C2, as stated, fails on the row: the later kind [g_reason] writes the
    column [eval_g_reason], and the reason of [g] is lost.  So the rule does
    not hold of every pair whose result is a mapping with the key
    [grounded]. *)
Lemma grounded_reason_overwritten :
  flatten plain (record_with reason_collision)
  = inr (row_with [("eval_g", JStr "Pass"); ("eval_g_reason", JStr "Pass")])
  /\ dict_get reason_collision "g"
     = Some (JObj [("grounded", JBool true); ("reason", JStr "because")])
  /\ dict_get (row_with [("eval_g", JStr "Pass"); ("eval_g_reason", JStr "Pass")])
              "eval_g_reason"
     <> Some (JStr "because")
  /\ ~ (forall (py : builtins) (item : json) (row eval_results result : dict)
              (eval_type : string) (reason : json),
          flatten py item = inr row ->
          path_get item ["evaluation_results"] = Some (JObj eval_results) ->
          dict_get eval_results eval_type = Some (JObj result) ->
          eval_type <> "decision_accuracy" ->
          dict_get result "grounded" <> None ->
          dict_get result "reason" = Some reason ->
          dict_get row ("eval_" ++ eval_type ++ "_reason") = Some reason).
Proof.
  repeat split; [discriminate|].
  intro H.
  specialize (H plain (record_with reason_collision)
                (row_with [("eval_g", JStr "Pass"); ("eval_g_reason", JStr "Pass")])
                reason_collision
                [("grounded", JBool true); ("reason", JStr "because")]
                "g" (JStr "because") eq_refl eq_refl eq_refl).
  assert (Hkind : "g" <> "decision_accuracy") by discriminate.
  assert (Hgrounded : dict_get [("grounded", JBool true); ("reason", JStr "because")]
                               "grounded" <> None) by discriminate.
  specialize (H Hkind Hgrounded eq_refl).
  discriminate H.
Qed.

Lemma grounded_rule_witness :
  flatten plain sample_record = inr sample_row
  /\ path_get sample_record ["evaluation_results"]
     = Some (JObj ([("decision_accuracy", JBool true)]
                     ++ ("groundedness",
                         JObj [ ("grounded", JBool false);
                                ("reason", JStr "missing citation") ])
                     :: [ ("custom_check",
                           JObj [ ("score", JFloat 1 (-1));
                                  ("notes", JStr "ok") ]) ]))
  /\ "groundedness" <> "decision_accuracy"
  /\ dict_get [ ("grounded", JBool false); ("reason", JStr "missing citation") ]
              "grounded" = Some (JBool false)
  /\ dict_get (shape_all []
                 [ ("custom_check",
                    JObj [ ("score", JFloat 1 (-1)); ("notes", JStr "ok") ]) ])
              "eval_groundedness" = None
  /\ dict_get (shape_all []
                 [ ("custom_check",
                    JObj [ ("score", JFloat 1 (-1)); ("notes", JStr "ok") ]) ])
              "eval_groundedness_reason" = None
  /\ dict_get sample_row "eval_groundedness" = Some (JStr "Fail")
  /\ dict_get sample_row "eval_groundedness_reason"
     = Some (JStr "missing citation").
Proof.
  assert (Hkind : "groundedness" <> "decision_accuracy") by discriminate.
  do 2 (split; [reflexivity|]). split; [exact Hkind|].
  do 3 (split; [reflexivity|]).
  split.
  - exact (proj1 (grounded_rule plain sample_record sample_row
                    [("decision_accuracy", JBool true)]
                    [ ("custom_check",
                       JObj [ ("score", JFloat 1 (-1)); ("notes", JStr "ok") ]) ]
                    [ ("grounded", JBool false);
                      ("reason", JStr "missing citation") ]
                    "groundedness" (JBool false)
                    eq_refl eq_refl Hkind eq_refl eq_refl eq_refl)).
  - exact (proj1 (proj2 (grounded_rule plain sample_record sample_row
                    [("decision_accuracy", JBool true)]
                    [ ("custom_check",
                       JObj [ ("score", JFloat 1 (-1)); ("notes", JStr "ok") ]) ]
                    [ ("grounded", JBool false);
                      ("reason", JStr "missing citation") ]
                    "groundedness" (JBool false)
                    eq_refl eq_refl Hkind eq_refl eq_refl eq_refl))).
Defined.

(** C4, as amended.  In the row of a record, for a kind other than
    [decision_accuracy] whose result is a mapping with none of the keys
    [grounded], [Eval_Status], [negation_pass], and when no later kind writes
    one of the columns [eval_<kind>_<subkey>] of the mapping: for every
    member [(subkey, subvalue)] of the mapping the column
    [eval_<kind>_<subkey>] is [normalize(subvalue)], a subvalue that is itself
    a mapping (or a list) being stored whole, one level down and no further;
    every other column is what the base columns and the other kinds make
    it. *)
Theorem other_mapping_rule (py : builtins)
        (item : json) (row earlier later result : dict) (eval_type : string)
        (Hrow : flatten py item = inr row)
        (Hresults : path_get item ["evaluation_results"]
                    = Some (JObj (earlier ++ (eval_type, JObj result) :: later)))
        (Hkind : eval_type <> "decision_accuracy")
        (Hgrounded : dict_get result "grounded" = None)
        (Hstatus : dict_get result "Eval_Status" = None)
        (Hnegation : dict_get result "negation_pass" = None)
        (Hkeys : NoDup (keys result))
        (Hfree :
           forallb
             (fun kv =>
                match dict_get (shape_all [] later)
                               ("eval_" ++ eval_type ++ "_" ++ fst kv) with
                | Some _ => false
                | None => true
                end)
             result = true) :
  let others := shape_all (firstn 9 row) (earlier ++ later) in
  List.map (fun kv => dict_get row ("eval_" ++ eval_type ++ "_" ++ fst kv)) result
  = List.map (fun kv => Some (Inner.convert_bool_to_pass_fail (snd kv))) result
  /\ (forall subkey : string,
         dict_get row ("eval_" ++ eval_type ++ "_" ++ subkey)
         = match dict_get result subkey with
           | Some (JObj nested) => Some (JObj nested)
           | Some (JArr nested) => Some (JArr nested)
           | Some subvalue => Some (Inner.convert_bool_to_pass_fail subvalue)
           | None => dict_get others ("eval_" ++ eval_type ++ "_" ++ subkey)
           end)
  /\ (forall c : string,
         dict_get row c
         = match find (fun kv => String.eqb c ("eval_" ++ eval_type ++ "_" ++ fst kv))
                      result with
           | Some kv => Some (Inner.convert_bool_to_pass_fail (snd kv))
           | None => dict_get others c
           end).
Proof.
  cbv zeta.
  assert (Hall : forall c : string,
             dict_get row c
             = match find (fun kv =>
                             String.eqb c ("eval_" ++ eval_type ++ "_" ++ fst kv))
                          result with
               | Some kv => Some (Inner.convert_bool_to_pass_fail (snd kv))
               | None => dict_get (shape_all (firstn 9 row) (earlier ++ later)) c
               end).
  { intro c.
    rewrite (flatten_turn _ _ _ _ _ _ _ c Hrow Hresults), others_get.
    rewrite (shape_other [] result _ Hkind Hgrounded Hstatus Hnegation).
    rewrite (fold_subkeys_get _ _ _ _ Hkeys). cbn [dict_get].
    destruct (find _ result) as [kv|] eqn:Ef; [|reflexivity].
    apply find_some in Ef as [Hin Hc]. apply String.eqb_eq in Hc; subst c.
    pose proof (proj1 (forallb_forall _ _) Hfree kv Hin) as Hkv. cbn beta in Hkv.
    now destruct (dict_get (shape_all [] later)
                           ("eval_" ++ eval_type ++ "_" ++ fst kv)). }
  assert (Hsub : forall subkey : string,
             dict_get row ("eval_" ++ eval_type ++ "_" ++ subkey)
             = match dict_get result subkey with
               | Some subvalue => Some (Inner.convert_bool_to_pass_fail subvalue)
               | None => dict_get (shape_all (firstn 9 row) (earlier ++ later))
                                  ("eval_" ++ eval_type ++ "_" ++ subkey)
               end).
  { intro subkey. rewrite Hall, <- (find_subkey eval_type result).
    now destruct (find _ result). }
  split; [|split; [|exact Hall]].
  - apply map_ext_in. intros [subkey subvalue] Hin. cbn [fst snd].
    rewrite Hsub.
    assert (Hget : dict_get result subkey = Some subvalue).
    { clear -Hin Hkeys. induction result as [|[k v] result IH]; [destruct Hin|].
      cbn [keys List.map fst] in Hkeys. apply NoDup_cons_iff in Hkeys as [Hk Hnd].
      cbn [dict_get]. destruct Hin as [E|Hin].
      - injection E as -> ->. now rewrite String.eqb_refl.
      - destruct (String.eqb k subkey) eqn:E; [|now apply IH].
        apply String.eqb_eq in E; subst k. exfalso. apply Hk.
        change subkey with (fst (subkey, subvalue)). now apply in_map. }
    now rewrite Hget.
  - intro subkey. rewrite Hsub. now destruct (dict_get result subkey) as [[]|].
Qed.

(** C4, as stated, fails on the row: the later kind [a_b] with the subkey
    [c] writes the column of the kind [a] and its subkey [b_c].  So the rule
    does not hold of every pair whose result is a mapping with none of the
    recognised keys. *)
Lemma subkey_column_overwritten :
  flatten plain (record_with subkey_collision)
  = inr (row_with [("eval_a_b_c", JInt 2)])
  /\ dict_get subkey_collision "a" = Some (JObj [("b_c", JInt 1)])
  /\ dict_get (row_with [("eval_a_b_c", JInt 2)]) "eval_a_b_c"
     <> Some (Inner.convert_bool_to_pass_fail (JInt 1))
  /\ ~ (forall (py : builtins) (item : json) (row eval_results result : dict)
              (eval_type subkey : string) (subvalue : json),
          flatten py item = inr row ->
          path_get item ["evaluation_results"] = Some (JObj eval_results) ->
          dict_get eval_results eval_type = Some (JObj result) ->
          eval_type <> "decision_accuracy" ->
          dict_get result "grounded" = None ->
          dict_get result "Eval_Status" = None ->
          dict_get result "negation_pass" = None ->
          dict_get result subkey = Some subvalue ->
          dict_get row ("eval_" ++ eval_type ++ "_" ++ subkey)
          = Some (Inner.convert_bool_to_pass_fail subvalue)).
Proof.
  repeat split; [discriminate|].
  intro H.
  specialize (H plain (record_with subkey_collision)
                (row_with [("eval_a_b_c", JInt 2)])
                subkey_collision [("b_c", JInt 1)] "a" "b_c" (JInt 1)
                eq_refl eq_refl eq_refl).
  assert (Hkind : "a" <> "decision_accuracy") by discriminate.
  specialize (H Hkind eq_refl eq_refl eq_refl eq_refl).
  discriminate H.
Qed.

Lemma other_mapping_rule_witness :
  flatten plain sample_record = inr sample_row
  /\ path_get sample_record ["evaluation_results"]
     = Some (JObj ([ ("decision_accuracy", JBool true);
                     ("groundedness",
                      JObj [ ("grounded", JBool false);
                             ("reason", JStr "missing citation") ]) ]
                     ++ ("custom_check",
                         JObj [ ("score", JFloat 1 (-1)); ("notes", JStr "ok") ])
                     :: []))
  /\ "custom_check" <> "decision_accuracy"
  /\ dict_get [ ("score", JFloat 1 (-1)); ("notes", JStr "ok") ] "grounded" = None
  /\ dict_get [ ("score", JFloat 1 (-1)); ("notes", JStr "ok") ] "Eval_Status" = None
  /\ dict_get [ ("score", JFloat 1 (-1)); ("notes", JStr "ok") ] "negation_pass"
     = None
  /\ NoDup (keys [ ("score", JFloat 1 (-1)); ("notes", JStr "ok") ])
  /\ List.map (fun kv => dict_get sample_row ("eval_custom_check_" ++ fst kv))
              [ ("score", JFloat 1 (-1)); ("notes", JStr "ok") ]
     = [ Some (JFloat 1 (-1)); Some (JStr "ok") ].
Proof.
  assert (Hkind : "custom_check" <> "decision_accuracy") by discriminate.
  assert (Hkeys : NoDup (keys [ ("score", JFloat 1 (-1)); ("notes", JStr "ok") ])).
  { repeat constructor; cbn; intuition discriminate. }
  do 2 (split; [reflexivity|]). split; [exact Hkind|].
  do 3 (split; [reflexivity|]). split; [exact Hkeys|].
  exact (proj1 (other_mapping_rule plain sample_record sample_row
                  [ ("decision_accuracy", JBool true);
                    ("groundedness",
                     JObj [ ("grounded", JBool false);
                            ("reason", JStr "missing citation") ]) ]
                  [] [ ("score", JFloat 1 (-1)); ("notes", JStr "ok") ]
                  "custom_check" eq_refl eq_refl Hkind eq_refl eq_refl eq_refl
                  Hkeys eq_refl)).
Defined.
